(** * Company Operations API: access control and token logic

    A shallow embedding of [main.py] and [schemas.py].  Documents are
    Python dicts (finite maps from field names to values), collections are
    lists of documents, the route handlers are state-passing functions over
    the database that either return a value or raise an exception. *)

From Stdlib Require Import ZArith NArith Ascii String List Lia.
From Stdlib Require Import Floats.SpecFloat.
From stdpp Require Import base decidable option list strings gmap fin_maps.

Open Scope string_scope.

(** ** Python string primitives

    Strings are sequences of code points below 256, which is also how the
    HTTP layer hands header values to the application. *)
Module Py.

(** [c.isspace()] for a code point below 256. *)
Definition isspace (c : ascii) : bool :=
  let n := N_of_ascii c in
  ((9 <=? n) && (n <=? 13) || (28 <=? n) && (n <=? 32)
   || (n =? 133) || (n =? 160))%N.

Definition lower_char (c : ascii) : ascii :=
  let n := N_of_ascii c in
  if ((65 <=? n) && (n <=? 90)
      || (192 <=? n) && (n <=? 222) && negb (n =? 215))%N
  then ascii_of_N (n + 32) else c.

(** [s.lower()] *)
Fixpoint lower (s : string) : string :=
  match s with
  | EmptyString => EmptyString
  | String c s' => String (lower_char c) (lower s')
  end.

(** [s.startswith(p)] *)
Definition startswith (s p : string) : bool := String.prefix p s.

(** [c in s] for a one-character needle. *)
Fixpoint contains (c : ascii) (s : string) : bool :=
  match s with
  | EmptyString => false
  | String a s' => if decide (a = c) then true else contains c s'
  end.

(** [s.split(sep, 1)]: a list of one element when [sep] does not occur,
    of two elements (before and after the first [sep]) when it does. *)
Fixpoint split (sep : ascii) (s : string) : list string :=
  match s with
  | EmptyString => [EmptyString]
  | String a s' =>
      if decide (a = sep) then [EmptyString; s']
      else match split sep s' with
           | h :: t => String a h :: t
           | [] => [String a EmptyString]
           end
  end.

Fixpoint lstrip (s : string) : string :=
  match s with
  | EmptyString => EmptyString
  | String c s' => if isspace c then lstrip s' else s
  end.

Fixpoint rstrip (s : string) : string :=
  match s with
  | EmptyString => EmptyString
  | String c s' =>
      match rstrip s' with
      | EmptyString => if isspace c then EmptyString else String c EmptyString
      | r => String c r
      end
  end.

(** [s.strip()] *)
Definition strip (s : string) : string := rstrip (lstrip s).

(** Truthiness of a string: [not s] holds for the empty string only. *)
Definition truthy (s : string) : bool :=
  match s with EmptyString => false | _ => true end.

(** The characters [hexdigest()] and [str(ObjectId)] are made of. *)
Definition is_hex_lower (c : ascii) : bool :=
  let n := N_of_ascii c in
  ((48 <=? n) && (n <=? 57) || (97 <=? n) && (n <=? 102))%N.

Definition is_hex (c : ascii) : bool :=
  let n := N_of_ascii c in
  is_hex_lower c || ((65 <=? n) && (n <=? 70))%N.

Fixpoint all (p : ascii → bool) (s : string) : bool :=
  match s with
  | EmptyString => true
  | String c s' => p c && all p s'
  end.

End Py.

(** ** BSON values and documents *)

(** An [ObjectId] is represented by the 24 lower-case hexadecimal digits
    that [str(oid)] prints; a [datetime] and a [date] by their ISO 8601
    text, which is what [isoformat()] returns. *)
Record ObjectId := mkObjectId { oid_str : string }.
Record datetime := mkDatetime { isoformat : string }.
Record date := mkDate { date_isoformat : string }.

Inductive value :=
| VNone
| VBool (b : bool)
| VStr (s : string)
| VFloat (x : spec_float)
| VObjectId (o : ObjectId)
| VDatetime (t : datetime)
| VDate (d : date).

#[global] Instance spec_float_eq_dec : EqDecision spec_float.
Proof. solve_decision. Defined.
#[global] Instance ObjectId_eq_dec : EqDecision ObjectId.
Proof. solve_decision. Defined.
#[global] Instance datetime_eq_dec : EqDecision datetime.
Proof. solve_decision. Defined.
#[global] Instance date_eq_dec : EqDecision date.
Proof. solve_decision. Defined.
#[global] Instance value_eq_dec : EqDecision value.
Proof. solve_decision. Defined.

Abbreviation doc := (gmap string value).
Abbreviation collection := (list (gmap string value)).
Abbreviation DB := (gmap string (list (gmap string value))).

(** [bson.ObjectId(s)] on a string of 24 hexadecimal digits; any other
    string is an [InvalidId]. *)
Definition ObjectId_of_hex24 (s : string) : option ObjectId :=
  if (String.length s =? 24)%nat && Py.all Py.is_hex s
  then Some (mkObjectId (Py.lower s)) else None.

(** ** What the store keeps of a document

    BSON dates count milliseconds: a [datetime] written to the store comes
    back with its microseconds cut to a multiple of 1000.  On the ISO text,
    [YYYY-MM-DDTHH:MM:SS.ffffff] keeps the first three digits of the
    fraction, and loses the fraction when these are zero, as [isoformat()]
    prints no fraction for a whole second. *)
Definition bson_datetime (t : datetime) : datetime :=
  let s := isoformat t in
  if (String.length s =? 26)%nat then
    if decide (substring 20 3 s = "000")
    then mkDatetime (substring 0 19 s)
    else mkDatetime (substring 0 23 s +:+ "000")
  else t.

Definition bson_value (v : value) : value :=
  match v with
  | VDatetime t => VDatetime (bson_datetime t)
  | _ => v
  end.

(** The document as the store returns it once written. *)
Definition bson_encode (d : doc) : doc := bson_value <$> d.

(** ** The part of pymongo the handlers use *)
Module Mongo.

(** An equality filter [q] selects the documents that carry every
    field of [q] with the same value.  The filters of this program hold
    strings, [True] and identifiers, never [None]. *)
Definition matches (q d : doc) : Prop :=
  map_Forall (λ k v, d !! k = Some v) q.

#[global] Instance matches_dec q d : Decision (matches q d).
Proof. unfold matches. apply _. Defined.

(** [collection.find(q)] *)
Definition find (q : doc) (c : collection) : collection :=
  filter (matches q) c.

(** [collection.find_one(q)] *)
Definition find_one (q : doc) (c : collection) : option doc :=
  head (find q c).

(** [collection.count_documents(q)] *)
Definition count_documents (q : doc) (c : collection) : nat :=
  length (find q c).

(** [collection.insert_one(d)]: the driver assigns [_id] when the
    document has none; the document is kept as BSON encodes it. *)
Definition insert_one (new_id : ObjectId) (d : doc) (c : collection)
  : collection :=
  c ++ [bson_encode
          match d !! "_id" with
          | Some _ => d
          | None => <["_id" := VObjectId new_id]> d
          end].

(** [collection.update_one(q, {"$set": upd})]: the first match gets the
    fields of [upd], as BSON encodes them; the others are left alone. *)
Fixpoint update_one (q upd : doc) (c : collection) : collection :=
  match c with
  | [] => []
  | d :: c' =>
      if decide (matches q d) then (bson_encode upd ∪ d) :: c'
      else d :: update_one q upd c'
  end.

End Mongo.

(** ** Exceptions and handler results *)

Inductive exn :=
| HTTPException (status_code : Z) (detail : string)
| ValidationError
| ValueError
| KeyError (key : string)
| TypeError
| IndexError
| InvalidId.

Inductive result (A : Type) :=
| Return (a : A)
| Raise (e : exn).
Arguments Return {A} a.
Arguments Raise {A} e.

#[global] Instance exn_eq_dec : EqDecision exn.
Proof. solve_decision. Defined.
#[global] Instance result_eq_dec `{EqDecision A} : EqDecision (result A).
Proof. solve_decision. Defined.

(** The status line the framework answers with: an [HTTPException]
    carries its own code, any other exception that leaves a handler is an
    internal server error. *)
Definition status_code_of {A} (r : result A) : Z :=
  match r with
  | Return _ => 200
  | Raise (HTTPException s _) => s
  | Raise _ => 500
  end.

(** A handler reads and writes the database and returns or raises.  A
    raise keeps the writes made before it: there are no transactions. *)
Definition Handler (A : Type) : Type := DB → result A * DB.

#[global] Instance Handler_ret : MRet Handler := λ A a db, (Return a, db).
#[global] Instance Handler_bind : MBind Handler := λ A B f m db,
  match m db with
  | (Return a, db') => f a db'
  | (Raise e, db') => (Raise e, db')
  end.

Definition raise {A} (e : exn) : Handler A := λ db, (Raise e, db).

Definition lift {A} (r : result A) : Handler A := λ db, (r, db).

(** [db[name]]: a collection that was never written to is empty. *)
Definition coll (db : DB) (name : string) : collection :=
  default [] (db !! name).

Definition find_one (name : string) (q : doc) : Handler (option doc) :=
  λ db, (Return (Mongo.find_one q (coll db name)), db).

Definition count_documents (name : string) (q : doc) : Handler nat :=
  λ db, (Return (Mongo.count_documents q (coll db name)), db).

Definition update_one (name : string) (q upd : doc) : Handler unit :=
  λ db, (Return tt, <[name := Mongo.update_one q upd (coll db name)]> db).

(** What a request takes from outside the program: the clock and the
    identifier the driver generates for an inserted document. *)
Record IO := mkIO { utcnow : datetime; new_ObjectId : ObjectId }.

(** Modelled from the spec: [create_document] of [database.py], which is
    not among the sources.  Section 4.3: "construct record with
    server-assigned creation fields, persist, re-fetch by assigned id".
    The helper stamps the record with the creation and update times,
    inserts it into the named collection and returns the assigned id as a
    string. *)
Definition create_document (io : IO) (name : string) (data : doc)
  : Handler string :=
  λ db,
    let stamped :=
      <["updated_at" := VDatetime (utcnow io)]>
        (<["created_at" := VDatetime (utcnow io)]> data) in
    (Return (oid_str (new_ObjectId io)),
     <[name := Mongo.insert_one (new_ObjectId io) stamped (coll db name)]> db).

(** Modelled from the spec: [get_documents] of [database.py], which is
    not among the sources.  Section 2: "document store queried": the
    documents of the named collection that the filter selects. *)
Definition get_documents (name : string) (q : doc) : Handler (list doc) :=
  λ db, (Return (Mongo.find q (coll db name)), db).

(** [d[k]] *)
Definition getitem (d : doc) (k : string) : result value :=
  match d !! k with
  | Some v => Return v
  | None => Raise (KeyError k)
  end.

(** [d.get(k, dflt)] *)
Definition get (d : doc) (k : string) (dflt : value) : value :=
  default dflt (d !! k).

(** [not d] for the result of [find_one]: [None] and the empty dict. *)
Definition falsy (o : option doc) : bool :=
  match o with
  | None => true
  | Some d => bool_decide (d = ∅)
  end.

(** ** Literal types *)

Inductive Role := employee | core.
Inductive TaskStatus := pending | in_progress | done.
Inductive SalaryStatus := salary_pending | paid.
Inductive FinanceKind := revenue | expense.

#[global] Instance Role_eq_dec : EqDecision Role.
Proof. solve_decision. Defined.

Definition Role_str (r : Role) : string :=
  match r with employee => "employee" | core => "core" end.

Definition TaskStatus_str (s : TaskStatus) : string :=
  match s with
  | pending => "pending" | in_progress => "in_progress" | done => "done"
  end.

Definition SalaryStatus_str (s : SalaryStatus) : string :=
  match s with salary_pending => "pending" | paid => "paid" end.

Definition FinanceKind_str (k : FinanceKind) : string :=
  match k with revenue => "revenue" | expense => "expense" end.

(** Validation of a value against [Literal["employee", "core"]]. *)
Definition Role_of_value (v : value) : option Role :=
  match v with
  | VStr s =>
      if decide (s = "employee") then Some employee
      else if decide (s = "core") then Some core
      else None
  | _ => None
  end.

(** [Optional[str]] as a BSON value. *)
Definition opt_str (o : option string) : value :=
  match o with Some s => VStr s | None => VNone end.

(** ** Floating-point bounds of the schemas

    A [float] is an IEEE 754 binary64 value in canonical form. *)
Definition float_0 : spec_float := S754_zero false.
Definition float_24 : spec_float :=
  S754_finite false 6755399441055744 (-48).

(** [Field(ge=lo)]: accepted when [x >= lo] holds, so a NaN, which
    compares with nothing, is rejected. *)
Definition Field_ge (lo x : spec_float) : bool := SFleb lo x.
(** [Field(le=hi)]: accepted when [x <= hi] holds; a NaN is rejected. *)
Definition Field_le (hi x : spec_float) : bool := SFleb x hi.

(** ** schemas.py: one model per collection

    An [EmailStr] is carried as the string it validates to; the address
    syntax is checked where the request enters the application. *)

Module User.
Record t := make
  { name : string; email : string; role : Role;
    password_hash : string; is_active : bool }.

Definition model_dump (u : t) : doc :=
  list_to_map
    [("name", VStr (name u)); ("email", VStr (email u));
     ("role", VStr (Role_str (role u)));
     ("password_hash", VStr (password_hash u));
     ("is_active", VBool (is_active u))].
End User.

Module Task.
Record t := make
  { title : string; description : option string; assignee_email : string;
    status : TaskStatus; due_date : option date }.

Definition model_dump (x : t) : doc :=
  list_to_map
    [("title", VStr (title x)); ("description", opt_str (description x));
     ("assignee_email", VStr (assignee_email x));
     ("status", VStr (TaskStatus_str (status x)));
     ("due_date", match due_date x with
                  | Some d => VDate d
                  | None => VNone
                  end)].
End Task.

Module Report.
Record t := make
  { employee_email : string; report_date : date; summary : string;
    hours_worked : spec_float }.

(** [hours_worked: float = Field(..., ge=0, le=24)] *)
Definition validate (x : t) : result t :=
  if Field_ge float_0 (hours_worked x) && Field_le float_24 (hours_worked x)
  then Return x else Raise ValidationError.

Definition model_dump (x : t) : doc :=
  list_to_map
    [("employee_email", VStr (employee_email x));
     ("report_date", VDate (report_date x));
     ("summary", VStr (summary x));
     ("hours_worked", VFloat (hours_worked x))].
End Report.

Module SalaryPayment.
Record t := make
  { employee_email : string; amount : spec_float; month : string;
    notes : option string; status : SalaryStatus }.

(** [amount: float = Field(..., ge=0)] *)
Definition validate (x : t) : result t :=
  if Field_ge float_0 (amount x) then Return x else Raise ValidationError.

Definition model_dump (x : t) : doc :=
  list_to_map
    [("employee_email", VStr (employee_email x));
     ("amount", VFloat (amount x)); ("month", VStr (month x));
     ("notes", opt_str (notes x));
     ("status", VStr (SalaryStatus_str (status x)))].
End SalaryPayment.

Module FinanceRecord.
Record t := make
  { kind : FinanceKind; amount : spec_float; category : string;
    description : option string; reference : option string }.

(** [amount: float = Field(..., ge=0)] *)
Definition validate (x : t) : result t :=
  if Field_ge float_0 (amount x) then Return x else Raise ValidationError.

Definition model_dump (x : t) : doc :=
  list_to_map
    [("kind", VStr (FinanceKind_str (kind x)));
     ("amount", VFloat (amount x)); ("category", VStr (category x));
     ("description", opt_str (description x));
     ("reference", opt_str (reference x))].
End FinanceRecord.

(** ** main.py: request and response models *)

Module AuthUser.
Record t := make { email : string; role : Role; name : string }.

(** [AuthUser(email=..., role=..., name=...)] on values read from a
    stored document. *)
Definition validate (email role name : value) : result t :=
  match email, Role_of_value role, name with
  | VStr e, Some r, VStr n => Return (make e r n)
  | _, _, _ => Raise ValidationError
  end.
End AuthUser.

#[global] Instance AuthUser_eq_dec : EqDecision AuthUser.t.
Proof. solve_decision. Defined.

Module RegisterRequest.
Record t := make
  { name : string; email : string; password : string; role : Role }.

(** The JSON body: [role] may be left out. *)
Record body := make_body
  { body_name : string; body_email : string; body_password : string;
    body_role : option Role }.

(** [role: Literal["employee", "core"] = "employee"] *)
Definition of_body (b : body) : t :=
  make (body_name b) (body_email b) (body_password b)
       (default employee (body_role b)).
End RegisterRequest.

Module LoginRequest.
Record t := make { email : string; password : string }.
End LoginRequest.

Module TokenResponse.
Record t := make { token : string; user : AuthUser.t }.
End TokenResponse.

#[global] Instance TokenResponse_eq_dec : EqDecision TokenResponse.t.
Proof. solve_decision. Defined.

Module CreateTaskRequest.
Record t := make
  { title : string; description : option string; assignee_email : string;
    due_date : option string }.
End CreateTaskRequest.

Module UpdateTaskRequest.
Record t := make
  { status : option TaskStatus; title : option string;
    description : option string }.

(** [model_dump(exclude_none=True)]: the fields that are set. *)
Definition model_dump_exclude_none (x : t) : doc :=
  let d0 : doc := ∅ in
  let d1 := match status x with
            | Some s => <["status" := VStr (TaskStatus_str s)]> d0
            | None => d0
            end in
  let d2 := match title x with
            | Some s => <["title" := VStr s]> d1
            | None => d1
            end in
  match description x with
  | Some s => <["description" := VStr s]> d2
  | None => d2
  end.
End UpdateTaskRequest.

Module CreateReportRequest.
Record t := make
  { date : string; summary : string; hours_worked : spec_float }.
End CreateReportRequest.

Module CreateSalaryRequest.
Record t := make
  { employee_email : string; amount : spec_float; month : string;
    notes : option string; status : SalaryStatus }.

(** The JSON body: [notes] and [status] may be left out. *)
Record body := make_body
  { body_employee_email : string; body_amount : spec_float;
    body_month : string; body_notes : option string;
    body_status : option SalaryStatus }.

(** [status: Literal["pending", "paid"] = "paid"] *)
Definition of_body (b : body) : t :=
  make (body_employee_email b) (body_amount b) (body_month b)
       (body_notes b) (default paid (body_status b)).
End CreateSalaryRequest.

Module CreateFinanceRequest.
Record t := make
  { kind : FinanceKind; amount : spec_float; category : string;
    description : option string; reference : option string }.
End CreateFinanceRequest.

(** ** What the process takes from its environment *)
Class Platform := {
  (** [sha256(s.encode()).hexdigest()] *)
  sha256_hexdigest : string → string;
  (** [os.getenv("APP_SECRET", "change-me-secret")], read once at start *)
  SECRET : string;
  (** [datetime.fromisoformat(s).date()], [None] for a [ValueError] *)
  fromisoformat : string → option date;
  (** [bson.ObjectId(s)], [None] for an [InvalidId] *)
  ObjectId_of_str : string → option ObjectId;
}.

#[global] Instance result_ret : MRet result := λ A a, Return a.
#[global] Instance result_bind : MBind result := λ A B f r,
  match r with
  | Return a => f a
  | Raise e => Raise e
  end.

(** [l[i]] *)
Definition index {A} (l : list A) (i : nat) : result A :=
  match l !! i with
  | Some x => Return x
  | None => Raise IndexError
  end.

(** A value used where the source declares a [str] ([make_token]'s
    parameters).  The documents [register_user] writes hold strings there;
    a value of another type is reported as a [TypeError]. *)
Definition as_str (v : value) : result string :=
  match v with
  | VStr s => Return s
  | _ => Raise TypeError
  end.

Definition serialize_value (v : value) : value :=
  match v with
  | VObjectId o => VStr (oid_str o)
  | VDatetime t => VStr (isoformat t)
  | _ => v
  end.

Definition serialize_doc (d : doc) : doc :=
  if bool_decide (d = ∅) then d else serialize_value <$> d.

(** [serialize_doc] on the result of [find_one]: [None] stays [None]. *)
Definition serialize_doc_opt (o : option doc) : option doc :=
  serialize_doc <$> o.

Section handlers.
Context `{Platform}.

(** [ObjectId(s)] where nothing catches the [InvalidId]. *)
Definition ObjectId_new (s : string) : result ObjectId :=
  match ObjectId_of_str s with
  | Some o => Return o
  | None => Raise InvalidId
  end.

Definition hash_password (password : string) : string :=
  sha256_hexdigest password.

Definition make_token (email password_hash : string) : string :=
  sha256_hexdigest (email +:+ ":" +:+ password_hash +:+ ":" +:+ SECRET)
    +:+ ":" +:+ email.

Definition parse_token (token : string) : result (option string) :=
  if negb (Py.truthy token) || negb (Py.contains ":" token) then Return None
  else match Py.split ":" token with
       | [_hash; email] => Return (Some email)
       | _ => Raise ValueError
       end.

Definition get_current_user (authorization : option string)
  : Handler AuthUser.t :=
  match authorization with
  | None =>
      raise (HTTPException 401 "Missing or invalid Authorization header")
  | Some authorization =>
      if negb (Py.truthy authorization)
         || negb (Py.startswith (Py.lower authorization) "bearer ")
      then raise (HTTPException 401 "Missing or invalid Authorization header")
      else
        rest ← lift (index (Py.split " " authorization) 1);
        let token := Py.strip rest in
        email ← lift (parse_token token);
        match email with
        | None => raise (HTTPException 401 "Invalid token")
        | Some email =>
            if negb (Py.truthy email)
            then raise (HTTPException 401 "Invalid token")
            else
              user ← find_one "user"
                (<["is_active" := VBool true]> {["email" := VStr email]});
              if falsy user
              then raise (HTTPException 401 "User not found or inactive")
              else
                let user := default ∅ user in
                user_email ← lift (getitem user "email");
                user_hash ← lift (getitem user "password_hash");
                e ← lift (as_str user_email);
                h ← lift (as_str user_hash);
                expected ← lift (index (Py.split ":" (make_token e h)) 0);
                given ← lift (index (Py.split ":" token) 0);
                if bool_decide (given ≠ expected)
                then raise (HTTPException 401 "Invalid token signature")
                else
                  user_email ← lift (getitem user "email");
                  user_role ← lift (getitem user "role");
                  lift (AuthUser.validate user_email user_role
                          (get user "name" (VStr "")))
        end
  end.

(** *** Auth *)

Definition register_user (io : IO) (payload : RegisterRequest.t)
    (current : option AuthUser.t) : Handler AuthUser.t :=
  users_count ← count_documents "user" ∅;
  _ ← (if (0 <? users_count)%nat then
         match current with
         | None => raise (HTTPException 401 "Authentication required")
         | Some current =>
             if bool_decide (AuthUser.role current ≠ core)
             then raise (HTTPException 403 "Only core can create users")
             else mret tt
         end
       else mret tt);
  existing ← find_one "user"
    {["email" := VStr (RegisterRequest.email payload)]};
  if negb (falsy existing)
  then raise (HTTPException 400 "Email already registered")
  else
    let doc := User.model_dump
      (User.make (RegisterRequest.name payload)
                 (RegisterRequest.email payload)
                 (RegisterRequest.role payload)
                 (hash_password (RegisterRequest.password payload))
                 true) in
    _ ← create_document io "user" doc;
    mret (AuthUser.make (RegisterRequest.email payload)
                        (RegisterRequest.role payload)
                        (RegisterRequest.name payload)).

Definition login (payload : LoginRequest.t) : Handler TokenResponse.t :=
  user ← find_one "user"
    (<["is_active" := VBool true]>
       {["email" := VStr (LoginRequest.email payload)]});
  if falsy user
  then raise (HTTPException 401 "Invalid credentials")
  else
    let user := default ∅ user in
    user_hash ← lift (getitem user "password_hash");
    if bool_decide
         (user_hash ≠ VStr (hash_password (LoginRequest.password payload)))
    then raise (HTTPException 401 "Invalid credentials")
    else
      user_email ← lift (getitem user "email");
      user_hash ← lift (getitem user "password_hash");
      e ← lift (as_str user_email);
      h ← lift (as_str user_hash);
      let token := make_token e h in
      user_email ← lift (getitem user "email");
      user_role ← lift (getitem user "role");
      au ← lift (AuthUser.validate user_email user_role
                   (get user "name" (VStr "")));
      mret (TokenResponse.make token au).

Definition me (current : AuthUser.t) : Handler AuthUser.t := mret current.

(** *** Tasks *)

Definition create_task (io : IO) (payload : CreateTaskRequest.t)
    (current : AuthUser.t) : Handler (option doc) :=
  if bool_decide (AuthUser.role current ≠ core)
  then raise (HTTPException 403 "Only core can create tasks")
  else
    let data := Task.model_dump
      (Task.make (CreateTaskRequest.title payload)
                 (CreateTaskRequest.description payload)
                 (CreateTaskRequest.assignee_email payload)
                 pending None) in
    let data :=
      match CreateTaskRequest.due_date payload with
      | Some s => if Py.truthy s then <["due_date" := VStr s]> data else data
      | None => data
      end in
    inserted_id ← create_document io "task" data;
    _id ← lift (ObjectId_new inserted_id);
    doc ← find_one "task" {["_id" := VObjectId _id]};
    mret (serialize_doc_opt doc).

Definition list_tasks (current : AuthUser.t) (assignee : option string)
  : Handler (list doc) :=
  let q : doc := ∅ in
  let q :=
    if bool_decide (AuthUser.role current = employee)
    then <["assignee_email" := VStr (AuthUser.email current)]> q
    else match assignee with
         | Some a => if Py.truthy a then <["assignee_email" := VStr a]> q
                     else q
         | None => q
         end in
  docs ← get_documents "task" q;
  mret (serialize_doc <$> docs).

Definition update_task (io : IO) (task_id : string)
    (payload : UpdateTaskRequest.t) (current : AuthUser.t)
  : Handler (option doc) :=
  match ObjectId_of_str task_id with
  | None => raise (HTTPException 400 "Invalid task id")
  | Some _id =>
      doc ← find_one "task" {["_id" := VObjectId _id]};
      if falsy doc
      then raise (HTTPException 404 "Task not found")
      else
        let doc := default ∅ doc in
        if bool_decide (AuthUser.role current = employee)
           && bool_decide (get doc "assignee_email" VNone
                           ≠ VStr (AuthUser.email current))
        then raise (HTTPException 403 "Not allowed")
        else
          let updates := UpdateTaskRequest.model_dump_exclude_none payload in
          if bool_decide (updates = ∅)
          then mret (Some (serialize_doc doc))
          else
            let updates :=
              <["updated_at" := VDatetime (utcnow io)]> updates in
            _ ← update_one "task" {["_id" := VObjectId _id]} updates;
            doc ← find_one "task" {["_id" := VObjectId _id]};
            mret (serialize_doc_opt doc)
  end.

(** *** Reports *)

Definition create_report (io : IO) (payload : CreateReportRequest.t)
    (current : AuthUser.t) : Handler (option doc) :=
  if bool_decide (AuthUser.role current ≠ employee)
  then raise (HTTPException 403 "Only employees can submit reports")
  else
    report_date ← lift
      (match fromisoformat (CreateReportRequest.date payload) with
       | Some d => Return d
       | None => Raise ValueError
       end);
    report ← lift
      (Report.validate
         (Report.make (AuthUser.email current) report_date
                      (CreateReportRequest.summary payload)
                      (CreateReportRequest.hours_worked payload)));
    let data := Report.model_dump report in
    inserted_id ← create_document io "report" data;
    _id ← lift (ObjectId_new inserted_id);
    doc ← find_one "report" {["_id" := VObjectId _id]};
    mret (serialize_doc_opt doc).

Definition list_reports (current : AuthUser.t) (employee_q : option string)
  : Handler (list doc) :=
  let q : doc := ∅ in
  let q :=
    if bool_decide (AuthUser.role current = employee)
    then <["employee_email" := VStr (AuthUser.email current)]> q
    else match employee_q with
         | Some a => if Py.truthy a then <["employee_email" := VStr a]> q
                     else q
         | None => q
         end in
  docs ← get_documents "report" q;
  mret (serialize_doc <$> docs).

(** *** Salary *)

Definition create_salary (io : IO) (payload : CreateSalaryRequest.t)
    (current : AuthUser.t) : Handler (option doc) :=
  if bool_decide (AuthUser.role current ≠ core)
  then raise (HTTPException 403 "Only core can create salary records")
  else
    salary ← lift
      (SalaryPayment.validate
         (SalaryPayment.make (CreateSalaryRequest.employee_email payload)
                             (CreateSalaryRequest.amount payload)
                             (CreateSalaryRequest.month payload)
                             (CreateSalaryRequest.notes payload)
                             (CreateSalaryRequest.status payload)));
    let data := SalaryPayment.model_dump salary in
    inserted_id ← create_document io "salarypayment" data;
    _id ← lift (ObjectId_new inserted_id);
    doc ← find_one "salarypayment" {["_id" := VObjectId _id]};
    mret (serialize_doc_opt doc).

Definition list_salary (current : AuthUser.t) (employee_q : option string)
  : Handler (list doc) :=
  let q : doc := ∅ in
  let q :=
    if bool_decide (AuthUser.role current = employee)
    then <["employee_email" := VStr (AuthUser.email current)]> q
    else match employee_q with
         | Some a => if Py.truthy a then <["employee_email" := VStr a]> q
                     else q
         | None => q
         end in
  docs ← get_documents "salarypayment" q;
  mret (serialize_doc <$> docs).

(** *** Finance (core only) *)

Definition create_finance (io : IO) (payload : CreateFinanceRequest.t)
    (current : AuthUser.t) : Handler (option doc) :=
  if bool_decide (AuthUser.role current ≠ core)
  then raise (HTTPException 403 "Only core can add finance records")
  else
    record ← lift
      (FinanceRecord.validate
         (FinanceRecord.make (CreateFinanceRequest.kind payload)
                             (CreateFinanceRequest.amount payload)
                             (CreateFinanceRequest.category payload)
                             (CreateFinanceRequest.description payload)
                             (CreateFinanceRequest.reference payload)));
    let data := FinanceRecord.model_dump record in
    inserted_id ← create_document io "financerecord" data;
    _id ← lift (ObjectId_new inserted_id);
    doc ← find_one "financerecord" {["_id" := VObjectId _id]};
    mret (serialize_doc_opt doc).

Definition list_finance (current : AuthUser.t) : Handler (list doc) :=
  if bool_decide (AuthUser.role current ≠ core)
  then raise (HTTPException 403 "Only core can view finance records")
  else
    docs ← get_documents "financerecord" ∅;
    mret (serialize_doc <$> docs).

(** *** Routes: the dependencies of each path operation, then its body

    The result of a route is what its path operation function returns or
    raises; the encoding of a returned value as a JSON response comes
    after it and is not modelled. *)

(** [POST /auth/register]: [current] is [Depends(lambda: None)]. *)
Definition POST_auth_register (io : IO) (authorization : option string)
    (body : RegisterRequest.body) : Handler AuthUser.t :=
  current ← mret (None : option AuthUser.t);
  register_user io (RegisterRequest.of_body body) current.

Definition POST_auth_login (payload : LoginRequest.t)
  : Handler TokenResponse.t :=
  login payload.

Definition GET_me (authorization : option string) : Handler AuthUser.t :=
  current ← get_current_user authorization;
  me current.

Definition POST_tasks (io : IO) (authorization : option string)
    (payload : CreateTaskRequest.t) : Handler (option doc) :=
  current ← get_current_user authorization;
  create_task io payload current.

Definition GET_tasks (authorization : option string)
    (assignee : option string) : Handler (list doc) :=
  current ← get_current_user authorization;
  list_tasks current assignee.

Definition PATCH_tasks (io : IO) (authorization : option string)
    (task_id : string) (payload : UpdateTaskRequest.t)
  : Handler (option doc) :=
  current ← get_current_user authorization;
  update_task io task_id payload current.

Definition POST_reports (io : IO) (authorization : option string)
    (payload : CreateReportRequest.t) : Handler (option doc) :=
  current ← get_current_user authorization;
  create_report io payload current.

Definition GET_reports (authorization : option string)
    (employee_q : option string) : Handler (list doc) :=
  current ← get_current_user authorization;
  list_reports current employee_q.

Definition POST_salary (io : IO) (authorization : option string)
    (body : CreateSalaryRequest.body) : Handler (option doc) :=
  current ← get_current_user authorization;
  create_salary io (CreateSalaryRequest.of_body body) current.

Definition GET_salary (authorization : option string)
    (employee_q : option string) : Handler (list doc) :=
  current ← get_current_user authorization;
  list_salary current employee_q.

Definition POST_finance (io : IO) (authorization : option string)
    (payload : CreateFinanceRequest.t) : Handler (option doc) :=
  current ← get_current_user authorization;
  create_finance io payload current.

Definition GET_finance (authorization : option string)
  : Handler (list doc) :=
  current ← get_current_user authorization;
  list_finance current.

End handlers.

(** ** A concrete platform

    An injective digest over the same alphabet as [hexdigest()]: the two
    hexadecimal digits of every character.  It instantiates the platform
    wherever a statement is evaluated on concrete data. *)
Module Demo.

Definition nibble (b0 b1 b2 b3 : bool) : ascii :=
  match b3, b2, b1, b0 with
  | false, false, false, false => "0"
  | false, false, false, true => "1"
  | false, false, true, false => "2"
  | false, false, true, true => "3"
  | false, true, false, false => "4"
  | false, true, false, true => "5"
  | false, true, true, false => "6"
  | false, true, true, true => "7"
  | true, false, false, false => "8"
  | true, false, false, true => "9"
  | true, false, true, false => "a"
  | true, false, true, true => "b"
  | true, true, false, false => "c"
  | true, true, false, true => "d"
  | true, true, true, false => "e"
  | true, true, true, true => "f"
  end%char.

Fixpoint hexlify (s : string) : string :=
  match s with
  | EmptyString => EmptyString
  | String (Ascii b0 b1 b2 b3 b4 b5 b6 b7) s' =>
      String (nibble b4 b5 b6 b7) (String (nibble b0 b1 b2 b3) (hexlify s'))
  end.

Definition platform : Platform :=
  {| sha256_hexdigest := hexlify;
     SECRET := "change-me-secret";
     fromisoformat := λ s, Some (mkDate s);
     ObjectId_of_str := ObjectId_of_hex24 |}.

Definition io : IO :=
  mkIO (mkDatetime "2024-05-01T09:30:00")
       (mkObjectId "65f000000000000000000001").

(** A store with one active core user [ada@corp.io], password [pw]. *)
Definition ada : doc :=
  <["_id" := VObjectId (mkObjectId "65f0000000000000000000aa")]>
    (User.model_dump
       (User.make "Ada" "ada@corp.io" core (hexlify "pw") true)).

(** An active employee [bob@corp.io], password [pw2]. *)
Definition bob : doc :=
  <["_id" := VObjectId (mkObjectId "65f0000000000000000000bb")]>
    (User.model_dump
       (User.make "Bob" "bob@corp.io" employee (hexlify "pw2") true)).

Definition task_of_bob : doc :=
  <["_id" := VObjectId (mkObjectId "65f0000000000000000000c1")]>
    (<["updated_at" := VDatetime (mkDatetime "2024-04-01T08:00:00")]>
       (<["created_at" := VDatetime (mkDatetime "2024-04-01T08:00:00")]>
          (Task.model_dump
             (Task.make "Audit" None "bob@corp.io" pending None)))).

Definition task_of_ada : doc :=
  <["_id" := VObjectId (mkObjectId "65f0000000000000000000c2")]>
    (<["updated_at" := VDatetime (mkDatetime "2024-04-02T08:00:00")]>
       (<["created_at" := VDatetime (mkDatetime "2024-04-02T08:00:00")]>
          (Task.model_dump
             (Task.make "Budget" (Some "Q2") "ada@corp.io" pending None)))).

Definition db : DB :=
  <["task" := [task_of_ada; task_of_bob]]> {["user" := [ada; bob]]}.

Definition ada_token : string :=
  @make_token platform "ada@corp.io" (hexlify "pw").
Definition bob_token : string :=
  @make_token platform "bob@corp.io" (hexlify "pw2").

Definition bearer (token : string) : option string :=
  Some ("Bearer " +:+ token).

(** The same store after Bob's password became [pw3]. *)
Definition bob_rehashed : doc :=
  <["password_hash" := VStr (hexlify "pw3")]> bob.

Definition db_rehashed : DB :=
  <["task" := [task_of_ada; task_of_bob]]> {["user" := [ada; bob_rehashed]]}.

Definition float_25 : spec_float :=
  S754_finite false 7036874417766400 (-48).
Definition float_1000 : spec_float :=
  S754_finite false 8796093022208000 (-43).

Definition eve : RegisterRequest.body :=
  RegisterRequest.make_body "Eve" "eve@corp.io" "pw4" (Some core).

Definition long_day : CreateReportRequest.t :=
  CreateReportRequest.make "2024-05-01" "inventory" float_25.

Definition rent : CreateFinanceRequest.t :=
  CreateFinanceRequest.make expense float_1000 "Ops" None None.

Definition may_salary : CreateSalaryRequest.body :=
  CreateSalaryRequest.make_body "bob@corp.io" float_1000 "2024-05"
    None None.

Definition mark_done : UpdateTaskRequest.t :=
  UpdateTaskRequest.make (Some done) None None.

End Demo.

(** ** A larger store

    The users of [Demo], a deactivated employee, and one document or more
    in every collection. *)
Module Scenario.

(** The platform of [Demo] after the secret was replaced. *)
Definition platform_rotated : Platform :=
  {| sha256_hexdigest := Demo.hexlify;
     SECRET := "rotated-secret";
     fromisoformat := λ s, Some (mkDate s);
     ObjectId_of_str := ObjectId_of_hex24 |}.

Definition float_8 : spec_float :=
  S754_finite false 4503599627370496 (-49).
Definition float_minus_1 : spec_float :=
  S754_finite true 4503599627370496 (-52).

Definition stamp (id created : string) (d : doc) : doc :=
  <["_id" := VObjectId (mkObjectId id)]>
    (<["updated_at" := VDatetime (mkDatetime created)]>
       (<["created_at" := VDatetime (mkDatetime created)]> d)).

Definition carl : doc :=
  stamp "65f0000000000000000000cc" "2024-03-01T08:00:00"
    (User.model_dump
       (User.make "Carl" "carl@corp.io" employee (Demo.hexlify "pw5")
                  false)).

Definition carl_token : string :=
  @make_token Demo.platform "carl@corp.io" (Demo.hexlify "pw5").

Definition report_of_bob : doc :=
  stamp "65f0000000000000000000d1" "2024-04-30T18:00:00"
    (Report.model_dump
       (Report.make "bob@corp.io" (mkDate "2024-04-30") "stock count"
                    float_8)).

Definition report_of_carl : doc :=
  stamp "65f0000000000000000000d2" "2024-02-28T18:00:00"
    (Report.model_dump
       (Report.make "carl@corp.io" (mkDate "2024-02-28") "returns"
                    float_8)).

Definition salary_of_bob : doc :=
  stamp "65f0000000000000000000e1" "2024-04-30T12:00:00"
    (SalaryPayment.model_dump
       (SalaryPayment.make "bob@corp.io" Demo.float_1000 "2024-04" None
                           paid)).

Definition salary_of_carl : doc :=
  stamp "65f0000000000000000000e2" "2024-02-29T12:00:00"
    (SalaryPayment.model_dump
       (SalaryPayment.make "carl@corp.io" Demo.float_1000 "2024-02"
                           (Some "last month") paid)).

Definition invoice : doc :=
  stamp "65f0000000000000000000f1" "2024-04-15T10:00:00"
    (FinanceRecord.model_dump
       (FinanceRecord.make revenue Demo.float_1000 "Sales" None
                           (Some "INV-1"))).

Definition db : DB :=
  <["financerecord" := [invoice]]>
    (<["salarypayment" := [salary_of_bob; salary_of_carl]]>
       (<["report" := [report_of_bob; report_of_carl]]>
          (<["task" := [Demo.task_of_ada; Demo.task_of_bob]]>
             {["user" := [Demo.ada; Demo.bob; carl]]}))).

Definition ada_user : AuthUser.t := AuthUser.make "ada@corp.io" core "Ada".
Definition bob_user : AuthUser.t :=
  AuthUser.make "bob@corp.io" employee "Bob".

Definition new_task : CreateTaskRequest.t :=
  CreateTaskRequest.make "Stocktake" (Some "aisle 3") "bob@corp.io"
    (Some "2024-06-01").

Definition good_day : CreateReportRequest.t :=
  CreateReportRequest.make "2024-05-02" "deliveries" float_8.

Definition refund : CreateFinanceRequest.t :=
  CreateFinanceRequest.make expense float_minus_1 "Ops" None None.

Definition pending_salary : CreateSalaryRequest.body :=
  CreateSalaryRequest.make_body "bob@corp.io" Demo.float_1000 "2024-05"
    (Some "advance") (Some salary_pending).

Definition rename : UpdateTaskRequest.t :=
  UpdateTaskRequest.make (Some in_progress) (Some "Audit Q2") None.

Definition zoe : RegisterRequest.t :=
  RegisterRequest.make "Zoe" "zoe@corp.io" "pw6" employee.

Definition bobby : RegisterRequest.t :=
  RegisterRequest.make "Bobby" "bob@corp.io" "pw7" employee.

(** A platform whose dates are the ten characters [YYYY-MM-DD]. *)
Definition platform_strict : Platform :=
  {| sha256_hexdigest := Demo.hexlify;
     SECRET := "change-me-secret";
     fromisoformat :=
       λ s, if (String.length s =? 10)%nat then Some (mkDate s) else None;
     ObjectId_of_str := ObjectId_of_hex24 |}.

(** A clock that shows microseconds. *)
Definition io_micro : IO :=
  mkIO (mkDatetime "2024-05-02T10:15:30.123456")
       (mkObjectId "65f000000000000000000002").

Definition no_day : CreateReportRequest.t :=
  CreateReportRequest.make "yesterday" "deliveries" float_8.

Definition nan_day : CreateReportRequest.t :=
  CreateReportRequest.make "2024-05-02" "deliveries" S754_nan.

Definition nan_salary : CreateSalaryRequest.body :=
  CreateSalaryRequest.make_body "bob@corp.io" S754_nan "2024-05" None None.

Definition nan_finance : CreateFinanceRequest.t :=
  CreateFinanceRequest.make expense S754_nan "Ops" None None.

End Scenario.

(** ** Vocabulary of the statements *)

(** [hexdigest()] prints lower-case hexadecimal digits. *)
Definition hex_digest (P : Platform) : Prop :=
  ∀ s, Py.all Py.is_hex_lower (sha256_hexdigest s) = true.

(** The text whose digest opens the token of [make_token]. *)
Definition token_text `{Platform} (email password_hash : string) : string :=
  email +:+ ":" +:+ password_hash +:+ ":" +:+ SECRET.

(** The digest does not collide on the two texts [a] and [b]: if it gives
    them one digest they are one text. *)
Definition no_collision (P : Platform) (a b : string) : Prop :=
  sha256_hexdigest a = sha256_hexdigest b → a = b.

(** What every validated [EmailStr] satisfies: it is not empty and holds
    no white space. *)
Definition address (e : string) : Prop :=
  e ≠ "" ∧ Py.all (λ c, negb (Py.isspace c)) e = true.

(** The email is the key of the user collection. *)
Definition unique_email (c : collection) : Prop :=
  ∀ d1 d2 e, d1 ∈ c → d2 ∈ c →
    d1 !! "email" = Some e → d2 !! "email" = Some e → d1 = d2.

(** The fields a [PATCH /tasks/{id}] can write. *)
Definition patchable : list string :=
  ["status"; "title"; "description"; "updated_at"].

(** * Properties *)

(** Unfolds the monad of the handlers and the store operations. *)
Ltac run :=
  unfold mbind, Handler_bind, mret, Handler_ret, lift, raise, find_one,
    count_documents, get_documents, update_one, create_document.

(** ** Strings *)

Lemma split_at_first (sep : ascii) (h e : string) :
  Py.contains sep h = false →
  Py.split sep (h +:+ String sep e) = [h; e].
Proof.
  induction h as [|a h IH]; simpl; intros Hc.
  - by rewrite decide_True.
  - destruct (decide (a = sep)); [done|]. by rewrite IH.
Qed.

Lemma contains_sep (sep : ascii) (h e : string) :
  Py.contains sep (h +:+ String sep e) = true.
Proof.
  induction h as [|a h IH]; simpl.
  - by rewrite decide_True.
  - by destruct (decide (a = sep)).
Qed.

Lemma all_app (p : ascii → bool) (s t : string) :
  Py.all p (s +:+ t) = Py.all p s && Py.all p t.
Proof.
  induction s as [|a s IH]; simpl; [done|]. by rewrite IH, andb_assoc.
Qed.

Lemma all_impl (p q : ascii → bool) (s : string) :
  (∀ c, p c = true → q c = true) → Py.all p s = true → Py.all q s = true.
Proof.
  intros Hpq. induction s as [|a s IH]; simpl; [done|].
  intros [Ha Hs]%andb_prop. rewrite (Hpq _ Ha). simpl. auto.
Qed.

Lemma all_not_contains (p : ascii → bool) (c : ascii) (s : string) :
  p c = false → Py.all p s = true → Py.contains c s = false.
Proof.
  intros Hc. induction s as [|a s IH]; simpl; [done|].
  intros [Ha Hs]%andb_prop.
  destruct (decide (a = c)) as [->|]; [congruence|auto].
Qed.

Lemma lstrip_id (s : string) :
  Py.all (λ c, negb (Py.isspace c)) s = true → Py.lstrip s = s.
Proof.
  destruct s as [|a s]; simpl; [done|].
  by intros [->%negb_true_iff _]%andb_prop.
Qed.

Lemma rstrip_id (s : string) :
  Py.all (λ c, negb (Py.isspace c)) s = true → Py.rstrip s = s.
Proof.
  induction s as [|a s IH]; simpl; [done|].
  intros [Ha%negb_true_iff Hs]%andb_prop. rewrite (IH Hs), Ha. by destruct s.
Qed.

Lemma strip_id (s : string) :
  Py.all (λ c, negb (Py.isspace c)) s = true → Py.strip s = s.
Proof. intros Hs. unfold Py.strip. by rewrite (lstrip_id _ Hs), rstrip_id. Qed.

Lemma hex_not_space (c : ascii) :
  Py.is_hex_lower c = true → negb (Py.isspace c) = true.
Proof.
  destruct c as [[] [] [] [] [] [] [] []]; vm_compute; congruence.
Qed.


(** ** The store *)

Lemma find_one_the (q : doc) (c : collection) (u : doc) :
  u ∈ c → Mongo.matches q u →
  (∀ d, d ∈ c → Mongo.matches q d → d = u) →
  Mongo.find_one q c = Some u.
Proof.
  unfold Mongo.find_one, Mongo.find.
  induction c as [|a c IH]; intros Hin Hm Huniq.
  - by apply elem_of_nil in Hin.
  - rewrite filter_cons. destruct (decide (Mongo.matches q a)) as [Ha|Ha].
    + simpl. f_equal. apply Huniq; [left|done].
    + apply IH; [|done|].
      * apply elem_of_cons in Hin as [->|]; [contradiction|done].
      * intros d Hd. apply Huniq. by right.
Qed.

Lemma matches_email_active (e : string) (d : doc) :
  Mongo.matches (<["is_active" := VBool true]> {["email" := VStr e]}) d
  ↔ d !! "email" = Some (VStr e) ∧ d !! "is_active" = Some (VBool true).
Proof.
  unfold Mongo.matches.
  rewrite map_Forall_insert by done. rewrite map_Forall_singleton. tauto.
Qed.

Lemma matches_singleton (k : string) (v : value) (d : doc) :
  Mongo.matches {[k := v]} d ↔ d !! k = Some v.
Proof. unfold Mongo.matches. by rewrite map_Forall_singleton. Qed.

Lemma find_one_Some (q : doc) (c : collection) (d : doc) :
  Mongo.find_one q c = Some d → d ∈ c ∧ Mongo.matches q d.
Proof.
  unfold Mongo.find_one, Mongo.find. intros Hd%head_Some_elem_of.
  apply list_elem_of_filter in Hd. tauto.
Qed.

(** ** Tokens: issuance and verification *)

Section auth.
Context `{P : Platform}.

Lemma digest_no_colon (s : string) :
  hex_digest P → Py.contains ":" (sha256_hexdigest s) = false.
Proof. intros Hh. by apply (all_not_contains Py.is_hex_lower). Qed.

Lemma make_token_unfold (email password_hash : string) :
  make_token email password_hash
  = sha256_hexdigest (email +:+ ":" +:+ password_hash +:+ ":" +:+ SECRET)
      +:+ String ":" email.
Proof. reflexivity. Qed.

Lemma token_strip (email password_hash : string) :
  hex_digest P → Py.all (λ c, negb (Py.isspace c)) email = true →
  Py.strip (make_token email password_hash) = make_token email password_hash.
Proof.
  intros Hh He. apply strip_id. rewrite make_token_unfold.
  rewrite all_app. apply andb_true_intro. split.
  - apply (all_impl Py.is_hex_lower); [apply hex_not_space | apply Hh].
  - exact He.
Qed.

Lemma token_split (email password_hash : string) :
  hex_digest P →
  Py.split ":" (make_token email password_hash)
  = [sha256_hexdigest (email +:+ ":" +:+ password_hash +:+ ":" +:+ SECRET);
     email].
Proof.
  intros Hh. rewrite make_token_unfold.
  by rewrite split_at_first by by apply digest_no_colon.
Qed.

Lemma token_parse (email password_hash : string) :
  hex_digest P →
  parse_token (make_token email password_hash) = Return (Some email).
Proof.
  intros Hh. unfold parse_token. rewrite token_split by done.
  rewrite make_token_unfold, contains_sep. simpl.
  by destruct (sha256_hexdigest _).
Qed.

Lemma bearer_prefix (t : string) :
  Py.startswith (Py.lower ("Bearer " +:+ t)) "bearer " = true.
Proof. unfold Py.startswith. simpl. by destruct (Py.lower _). Qed.

Lemma bearer_truthy (t : string) : Py.truthy ("Bearer " +:+ t) = true.
Proof. reflexivity. Qed.

Lemma bearer_split (t : string) :
  Py.split " " ("Bearer " +:+ t) = ["Bearer"; t].
Proof. reflexivity. Qed.

(** C6.  For every active user document of the store, identified by its
    email, and the password whose digest it holds, [POST /auth/login]
    succeeds, and the token it returns, sent back as [Bearer <token>], is
    accepted by [get_current_user], which yields exactly that user's
    email (with its role and name). *)
Theorem login_token_round_trip (db : DB) (u : doc)
    (email password name : string) (role : Role) :
  hex_digest P → address email →
  u ∈ coll db "user" → unique_email (coll db "user") →
  u !! "email" = Some (VStr email) →
  u !! "password_hash" = Some (VStr (hash_password password)) →
  u !! "is_active" = Some (VBool true) →
  u !! "role" = Some (VStr (Role_str role)) →
  get u "name" (VStr "") = VStr name →
  ∃ token,
    POST_auth_login (LoginRequest.make email password) db
    = (Return (TokenResponse.make token (AuthUser.make email role name)), db)
    ∧ get_current_user (Some ("Bearer " +:+ token)) db
      = (Return (AuthUser.make email role name), db).
Proof.
  intros Hh [Hne Hsp] Hin Huniq Hemail Hhash Hactive Hrole Hname.
  assert (Hfind : Mongo.find_one
            (<["is_active" := VBool true]> {["email" := VStr email]})
            (coll db "user") = Some u).
  { apply find_one_the; [done|by apply matches_email_active|].
    intros d Hd [Hde _]%matches_email_active. by eapply Huniq. }
  assert (Hu : bool_decide (u = ∅) = false).
  { apply bool_decide_eq_false. intros ->. by rewrite lookup_empty in Hemail. }
  assert (Hval :
    AuthUser.validate (VStr email) (VStr (Role_str role)) (VStr name)
    = Return (AuthUser.make email role name)) by by destruct role.
  exists (make_token email (hash_password password)). split.
  - unfold POST_auth_login, login, getitem. run.
    simpl. rewrite Hfind. simpl. rewrite Hu. simpl.
    rewrite Hhash, Hemail, Hrole, Hname.
    simpl. rewrite bool_decide_eq_false_2 by (intros ?; congruence).
    simpl. destruct role; reflexivity.
  - unfold get_current_user.
    rewrite bearer_prefix, bearer_split, bearer_truthy.
    unfold getitem, index. run. cbn [negb orb lookup list_lookup].
    rewrite token_strip, token_parse by done. cbn beta iota.
    assert (Htr : Py.truthy email = true) by (by destruct email).
    rewrite Htr. cbn [negb orb]. rewrite Hfind.
    cbn [negb orb falsy default from_option id]. rewrite Hu, Hemail, Hhash.
    cbn [as_str]. rewrite token_split by done. cbn [lookup list_lookup].
    rewrite bool_decide_eq_false_2 by (by intros ?).
    by rewrite Hrole, Hname, Hval.
Qed.
End auth.

Lemma matches_empty (d : doc) : Mongo.matches ∅ d.
Proof. apply map_Forall_empty. Qed.

Lemma find_empty (c : collection) : Mongo.find ∅ c = c.
Proof.
  unfold Mongo.find. induction c as [|d c IH]; [done|].
  rewrite filter_cons, decide_True by apply matches_empty. by rewrite IH.
Qed.

Lemma count_documents_all (c : collection) :
  Mongo.count_documents ∅ c = length c.
Proof. unfold Mongo.count_documents. by rewrite find_empty. Qed.

Lemma find_one_nil (q : doc) : Mongo.find_one q [] = None.
Proof. reflexivity. Qed.

(** ** The authentication dependency reads, and never writes *)

Section current_user.
Context `{P : Platform}.

Lemma get_current_user_db (authorization : option string) (db : DB) :
  (get_current_user authorization db).2 = db.
Proof.
  unfold get_current_user. run.
  repeat (case_match; simplify_eq/=; try done).
Qed.

Lemma get_current_user_nonempty (authorization : option string) (db : DB)
    (current : AuthUser.t) :
  (get_current_user authorization db).1 = Return current →
  coll db "user" ≠ [].
Proof.
  unfold get_current_user. run. intros H Hnil.
  repeat (case_match; simplify_eq/=; try done);
    match goal with
    | H : falsy _ = false |- _ => by rewrite Hnil in H
    end.
Qed.
End current_user.

(** ** Registration *)

Section register.
Context `{P : Platform}.

Lemma register_user_unauthenticated (io : IO) (payload : RegisterRequest.t)
    (db : DB) :
  coll db "user" ≠ [] →
  register_user io payload None db
  = (Raise (HTTPException 401 "Authentication required"), db).
Proof.
  intros Hne. unfold register_user. run.
  rewrite count_documents_all.
  destruct (coll db "user") as [|u c]; [done|]. reflexivity.
Qed.

Lemma register_user_bootstrap (io : IO) (payload : RegisterRequest.t)
    (current : option AuthUser.t) (db : DB) :
  coll db "user" = [] →
  register_user io payload current db
  = (Return (AuthUser.make (RegisterRequest.email payload)
                           (RegisterRequest.role payload)
                           (RegisterRequest.name payload)),
     <["user" :=
         [bson_encode
            (<["_id" := VObjectId (new_ObjectId io)]>
               (<["updated_at" := VDatetime (utcnow io)]>
                  (<["created_at" := VDatetime (utcnow io)]>
                     (User.model_dump
                        (User.make (RegisterRequest.name payload)
                                   (RegisterRequest.email payload)
                                   (RegisterRequest.role payload)
                                   (hash_password
                                      (RegisterRequest.password payload))
                                   true)))))]]> db).
Proof.
  intros Hnil. unfold register_user. run.
  rewrite count_documents_all, Hnil. cbn [length Nat.ltb Nat.leb].
  rewrite Hnil, find_one_nil. cbn [falsy negb].
  unfold Mongo.insert_one. rewrite Hnil. reflexivity.
Qed.

(** C1 (as the code behaves).  [POST /auth/register] takes [current] from
    [Depends(lambda: None)], so the caller's credentials never reach the
    handler: every request that carries a valid token, whether of a core
    user or of an employee, is answered 401 "Authentication required" and
    creates no user.  The role check that would let a core user through,
    and answer an employee with 403, is never reached. *)
Theorem register_ignores_credentials (io : IO) (db : DB)
    (authorization : option string) (current : AuthUser.t)
    (body : RegisterRequest.body) :
  get_current_user authorization db = (Return current, db) →
  POST_auth_register io authorization body db
  = (Raise (HTTPException 401 "Authentication required"), db).
Proof.
  intros Hauth. unfold POST_auth_register.
  apply register_user_unauthenticated.
  apply (get_current_user_nonempty authorization db current).
  by rewrite Hauth.
Qed.

(** C2.  A [POST /auth/register] succeeds if and only if the user
    collection is empty; this holds for every [Authorization] header and
    in particular for a request without one.  In that case the answer and
    the one stored user document carry the email and the role of the
    request, whatever role the caller supplied, ["core"] included; when
    users exist the request is refused with 401 and nothing is written. *)
Theorem register_bootstrap_iff (io : IO) (db : DB)
    (authorization : option string) (body : RegisterRequest.body) :
  let out := POST_auth_register io authorization body db in
  let payload := RegisterRequest.of_body body in
  ((∃ user, out.1 = Return user) ↔ coll db "user" = [])
  ∧ (coll db "user" = [] →
     out.1 = Return (AuthUser.make (RegisterRequest.email payload)
                                   (RegisterRequest.role payload)
                                   (RegisterRequest.name payload))
     ∧ ∃ d, coll out.2 "user" = [d]
            ∧ d !! "email" = Some (VStr (RegisterRequest.email payload))
            ∧ d !! "role"
              = Some (VStr (Role_str (RegisterRequest.role payload)))
            ∧ ∀ r, RegisterRequest.body_role body = Some r →
                   d !! "role" = Some (VStr (Role_str r)))
  ∧ (coll db "user" ≠ [] →
     out = (Raise (HTTPException 401 "Authentication required"), db)).
Proof.
  intros out payload. subst out. unfold POST_auth_register.
  change (mret None ≫= _) with (register_user io payload None).
  assert (Hboot := register_user_bootstrap io payload None db).
  assert (Hdeny := register_user_unauthenticated io payload db).
  split; [|split].
  - split.
    + intros [user Huser]. destruct (coll db "user") eqn:Hc; [done|].
      rewrite Hdeny in Huser; done.
    + intros Hnil. rewrite (Hboot Hnil). by eexists.
  - intros Hnil. rewrite (Hboot Hnil). split; [done|].
    eexists. split; [|split; [|split]].
    + cbn [snd]. unfold coll. by rewrite lookup_insert_eq.
    + done.
    + done.
    + intros r Hr. subst payload. unfold RegisterRequest.of_body.
      by rewrite Hr.
  - exact Hdeny.
Qed.
End register.

Lemma find_one_None (q : doc) (c : collection) :
  Mongo.find_one q c = None → ∀ d, d ∈ c → ¬ Mongo.matches q d.
Proof.
  unfold Mongo.find_one, Mongo.find. intros Hnone d Hd Hm.
  apply head_None in Hnone.
  assert (Hin : d ∈ filter (Mongo.matches q) c)
    by by apply list_elem_of_filter.
  rewrite Hnone in Hin. by apply elem_of_nil in Hin.
Qed.

Section registered.
Context `{P : Platform}.

(** X9.  What a successful [register_user] writes: one more user
    document, active, with the email, role and name of the request and the
    digest of its password; and the email stays a key of the collection. *)
Lemma register_user_document (io : IO) (payload : RegisterRequest.t)
    (current : option AuthUser.t) (db db' : DB) (user : AuthUser.t) :
  register_user io payload current db = (Return user, db') →
  ∃ d : doc,
    coll db' "user" = (coll db "user" ++ [d])%list
    ∧ d !! "email" = Some (VStr (RegisterRequest.email payload))
    ∧ d !! "password_hash"
      = Some (VStr (hash_password (RegisterRequest.password payload)))
    ∧ d !! "is_active" = Some (VBool true)
    ∧ d !! "role" = Some (VStr (Role_str (RegisterRequest.role payload)))
    ∧ d !! "name" = Some (VStr (RegisterRequest.name payload))
    ∧ (unique_email (coll db "user") → unique_email (coll db' "user")).
Proof.
  unfold register_user. run.
  destruct (if (0 <? _)%nat then _ else _) as [[[]|e] db1] eqn:Hgate;
    [|done].
  assert (db1 = db) as ->.
  { revert Hgate. repeat case_match; by intros [= <-]. }
  destruct (Mongo.find_one _ (coll db "user")) as [d0|] eqn:Hfind.
  { cbn [falsy negb]. apply find_one_Some in Hfind as [_ Hm].
    apply matches_singleton in Hm.
    rewrite bool_decide_eq_false_2
      by (intros ->; by rewrite lookup_empty in Hm). done. }
  cbn [falsy negb]. intros [= _ <-]. unfold Mongo.insert_one.
  set (stamped := <["updated_at" := _]> (<["created_at" := _]> _)).
  assert (Hnoid : stamped !! "_id" = None) by reflexivity.
  rewrite Hnoid.
  set (stored := bson_encode (<["_id" := VObjectId (new_ObjectId io)]> stamped)).
  exists stored.
  assert (Hstored :
    coll (<["user" := (coll db "user" ++ [stored])%list]> db) "user"
    = (coll db "user" ++ [stored])%list).
  { unfold coll at 1. by rewrite lookup_insert_eq. }
  split; [exact Hstored|]. do 5 (split; [reflexivity|]).
  rewrite Hstored. intros Huniq d1 d2 e Hd1 Hd2 He1 He2.
  pose proof (find_one_None _ _ Hfind) as Hfresh.
  apply elem_of_app in Hd1 as [Hd1 | ->%list_elem_of_singleton];
    apply elem_of_app in Hd2 as [Hd2 | ->%list_elem_of_singleton].
  - by eapply Huniq.
  - exfalso. apply (Hfresh d1 Hd1). apply matches_singleton.
    rewrite He1, <- He2. reflexivity.
  - exfalso. apply (Hfresh d2 Hd2). apply matches_singleton.
    rewrite He2, <- He1. reflexivity.
  - done.
Qed.
End registered.

Lemma length_append (s t : string) :
  String.length (s +:+ t) = (String.length s + String.length t)%nat.
Proof.
  induction s as [|a s IH]; [done|].
  change (S (String.length (s +:+ t)) = S (String.length s + String.length t)).
  by rewrite IH.
Qed.

Lemma append_cancel_r (s1 s2 t : string) : s1 +:+ t = s2 +:+ t → s1 = s2.
Proof.
  revert s2. induction s1 as [|a s1 IH]; intros [|b s2] Heq.
  - done.
  - apply (f_equal String.length) in Heq.
    rewrite !length_append in Heq. simpl in Heq. lia.
  - apply (f_equal String.length) in Heq.
    rewrite !length_append in Heq. simpl in Heq. lia.
  - change (String a (s1 +:+ t) = String b (s2 +:+ t)) in Heq.
    injection Heq as -> Heq. f_equal. by apply IH.
Qed.

(** ** Tokens and password changes *)

Section tokens.
Context `{P : Platform}.

Lemma raw_token_inj (email h1 h2 : string) :
  email +:+ ":" +:+ h1 +:+ ":" +:+ SECRET
  = email +:+ ":" +:+ h2 +:+ ":" +:+ SECRET → h1 = h2.
Proof.
  intros Heq. apply (inj (String.app email)) in Heq.
  apply (inj (String.app ":")) in Heq. by apply append_cancel_r in Heq.
Qed.

Lemma login_token (payload : LoginRequest.t) (db db' : DB)
    (resp : TokenResponse.t) :
  POST_auth_login payload db = (Return resp, db') →
  TokenResponse.token resp
  = make_token (LoginRequest.email payload)
               (hash_password (LoginRequest.password payload)).
Proof.
  unfold POST_auth_login, login. run.
  destruct (Mongo.find_one _ _) as [u|] eqn:Hf; cbn [falsy]; [|done].
  apply find_one_Some in Hf as [Hin [He Ha]%matches_email_active].
  case_bool_decide; [done|]. cbn [default from_option id].
  unfold getitem. rewrite He.
  destruct (u !! "password_hash") as [v|]; [|done].
  case_bool_decide as Hv; [done|]. subst v.
  cbn [as_str]. destruct (u !! "role"); [|done].
  destruct (AuthUser.validate _ _ _); [|done].
  by intros [= <- _].
Qed.

(** C7.  A token that [POST /auth/login] issued while the stored
    [password_hash] of the user was [h] is rejected with 401 in every later
    store in which the user's [password_hash] is some [h'] that differs from
    [h], as long as the digest does not collide on the two texts it is then
    applied to: [email:h':SECRET], of the stored hash, and [email:h:SECRET],
    of the token. *)
Theorem password_change_invalidates_token (db0 db1 : DB)
    (payload : LoginRequest.t) (resp : TokenResponse.t) :
  hex_digest P →
  address (LoginRequest.email payload) →
  POST_auth_login payload db0 = (Return resp, db0) →
  (∀ d, d ∈ coll db1 "user" →
        d !! "email" = Some (VStr (LoginRequest.email payload)) →
        ∃ h', d !! "password_hash" = Some (VStr h')
              ∧ h' ≠ hash_password (LoginRequest.password payload)
              ∧ no_collision P
                  (token_text (LoginRequest.email payload) h')
                  (token_text (LoginRequest.email payload)
                     (hash_password (LoginRequest.password payload)))) →
  ∃ detail,
    get_current_user (Some ("Bearer " +:+ TokenResponse.token resp)) db1
    = (Raise (HTTPException 401 detail), db1).
Proof.
  intros Hh [Hne Hsp] Hlogin Hchanged.
  rewrite (login_token _ _ _ _ Hlogin).
  set (email := LoginRequest.email payload) in *.
  set (h := hash_password (LoginRequest.password payload)) in *.
  unfold get_current_user.
  rewrite bearer_prefix, bearer_split, bearer_truthy.
  unfold find_one, mbind, Handler_bind, lift, getitem, index.
  cbn [negb orb lookup list_lookup].
  rewrite token_strip, token_parse by done. cbn beta iota.
  assert (Htr : Py.truthy email = true) by (by destruct email).
  rewrite Htr. cbn [negb orb].
  destruct (Mongo.find_one _ _) as [u|] eqn:Hf; cbn [falsy]; [|by eexists].
  case_bool_decide; [by eexists|]. cbn [default from_option id].
  apply find_one_Some in Hf as [Hin [He Ha]%matches_email_active].
  destruct (Hchanged u Hin He) as (h' & Hh' & Hneq & Hnc).
  rewrite He, Hh'. cbn [as_str]. rewrite !token_split by done.
  cbn [lookup list_lookup]. rewrite bool_decide_eq_true_2; [by eexists|].
  intros Heq. apply Hneq, (raw_token_inj email).
  exact (Hnc (eq_sym Heq)).
Qed.
End tokens.

Lemma serialize_doc_lookup (d : doc) (k : string) :
  serialize_doc d !! k = serialize_value <$> (d !! k).
Proof.
  unfold serialize_doc. case_bool_decide as Hd.
  - subst d. by rewrite lookup_empty.
  - apply lookup_fmap.
Qed.

Lemma find_matches (q : doc) (c : collection) (d : doc) :
  d ∈ Mongo.find q c → Mongo.matches q d.
Proof. unfold Mongo.find. by intros [? ?]%list_elem_of_filter. Qed.

(** ** Comparison of floats *)

Lemma SFcompare_antisym (x y : spec_float) :
  SFcompare y x = CompOpp <$> SFcompare x y.
Proof.
  destruct x as [[]|[]| |[] m1 e1], y as [[]|[]| |[] m2 e2]; try reflexivity;
    cbn [SFcompare fmap option_fmap option_map]; f_equal;
    rewrite (Z.compare_antisym e1 e2);
    destruct (e1 ?= e2)%Z; cbn [CompOpp]; try reflexivity;
    rewrite (Pos.compare_cont_antisym m1 m2 Eq); cbn [CompOpp];
    by rewrite ?CompOpp_involutive.
Qed.

(** [x < y] excludes [y <= x]. *)
Lemma SFltb_not_SFleb (x y : spec_float) :
  SFltb x y = true → SFleb y x = false.
Proof.
  unfold SFltb, SFleb. rewrite (SFcompare_antisym x y).
  by destruct (SFcompare x y) as [[]|].
Qed.

(** [ge=0] fails exactly for the negative numbers and for NaN; the zero of
    either sign passes. *)
Lemma Field_ge_0_false (x : spec_float) :
  SFltb x float_0 = true ∨ x = S754_nan ↔ Field_ge float_0 x = false.
Proof.
  unfold Field_ge, SFleb, SFltb. rewrite (SFcompare_antisym x float_0).
  split.
  - intros [Hlt | ->]; [|reflexivity].
    by destruct (SFcompare x float_0) as [[]|].
  - destruct x as [[]|[]| |[] m e]; cbn; auto; discriminate.
Qed.

(** A NaN passes neither bound. *)
Lemma Field_bounds_nan (b : spec_float) :
  Field_ge b S754_nan = false ∧ Field_le b S754_nan = false.
Proof. unfold Field_ge, Field_le, SFleb. by destruct b. Qed.

(** ** Role checks *)

Section access.
Context `{P : Platform}.

Lemma depends_current {A} (authorization : option string) (db : DB)
    (current : AuthUser.t) (body : AuthUser.t → Handler A) :
  get_current_user authorization db = (Return current, db) →
  (get_current_user authorization ≫= body) db = body current db.
Proof. intros Hauth. unfold mbind, Handler_bind. by rewrite Hauth. Qed.

(** C3 (as the code behaves).  For every authenticated employee, a
    [POST /reports] whose [hours_worked] is below 0 or above 24 creates no
    record, and the handler is left by an exception that is not an
    [HTTPException] ([ValueError] from the date, else the schema's
    [ValidationError]): the status is 500, not 400. *)
Theorem report_hours_violation_is_500 (io : IO) (db : DB)
    (authorization : option string) (current : AuthUser.t)
    (payload : CreateReportRequest.t) :
  get_current_user authorization db = (Return current, db) →
  AuthUser.role current = employee →
  SFltb (CreateReportRequest.hours_worked payload) float_0 = true
  ∨ SFltb float_24 (CreateReportRequest.hours_worked payload) = true →
  ∃ e, POST_reports io authorization payload db = (Raise e, db)
       ∧ (e = ValueError ∨ e = ValidationError)
       ∧ status_code_of (Raise e : result (option doc)) = 500%Z.
Proof.
  intros Hauth Hrole Hout. unfold POST_reports.
  rewrite (depends_current _ _ _ _ Hauth). unfold create_report.
  rewrite Hrole. rewrite bool_decide_eq_false_2 by (by intros ?).
  run. destruct (fromisoformat _) as [d|].
  - exists ValidationError. split; [|by auto].
    unfold Report.validate, Field_ge, Field_le. cbn [Report.hours_worked].
    by destruct Hout as [Hlt | Hlt]; apply SFltb_not_SFleb in Hlt;
      rewrite Hlt, ?andb_false_r.
  - exists ValueError. by auto.
Qed.

(** C4.  For every request authenticated as an employee, [POST /finance]
    and [GET /finance] both raise the 403 [HTTPException]: no finance
    document is returned and the database is unchanged. *)
Theorem finance_forbidden_to_employees (io : IO) (db : DB)
    (authorization : option string) (current : AuthUser.t)
    (payload : CreateFinanceRequest.t) :
  get_current_user authorization db = (Return current, db) →
  AuthUser.role current = employee →
  POST_finance io authorization payload db
  = (Raise (HTTPException 403 "Only core can add finance records"), db)
  ∧ GET_finance authorization db
    = (Raise (HTTPException 403 "Only core can view finance records"), db).
Proof.
  intros Hauth Hrole. unfold POST_finance, GET_finance.
  rewrite !(depends_current _ _ _ _ Hauth).
  unfold create_finance, list_finance. by rewrite Hrole.
Qed.

(** C5.  For every authenticated employee, every store and every value
    of the [assignee] query parameter, [GET /tasks] returns a list in which
    every task has [assignee_email] equal to the employee's own email. *)
Theorem employee_lists_own_tasks (db : DB) (authorization : option string)
    (current : AuthUser.t) (assignee : option string) :
  get_current_user authorization db = (Return current, db) →
  AuthUser.role current = employee →
  ∃ docs, GET_tasks authorization assignee db = (Return docs, db)
          ∧ ∀ d, d ∈ docs →
              d !! "assignee_email" = Some (VStr (AuthUser.email current)).
Proof.
  intros Hauth Hrole. unfold GET_tasks.
  rewrite (depends_current _ _ _ _ Hauth). unfold list_tasks.
  rewrite Hrole. rewrite bool_decide_eq_true_2 by done. run.
  eexists. split; [done|].
  intros d (d0 & -> & Hd0)%list_elem_of_fmap.
  apply find_matches in Hd0. apply map_Forall_insert_1_1 in Hd0.
  by rewrite serialize_doc_lookup, Hd0.
Qed.
End access.


Lemma updates_keys (payload : UpdateTaskRequest.t) (k : string) :
  k ∉ ["status"; "title"; "description"] →
  UpdateTaskRequest.model_dump_exclude_none payload !! k = None.
Proof.
  intros Hk. unfold UpdateTaskRequest.model_dump_exclude_none.
  assert (k ≠ "status" ∧ k ≠ "title" ∧ k ≠ "description") as (? & ? & ?).
  { rewrite !elem_of_cons in Hk. repeat split; intros ->; tauto. }
  destruct payload as [[s|] [t|] [d|]]; cbn;
    by rewrite ?lookup_insert_ne, ?lookup_empty by done.
Qed.

Lemma updates_none :
  UpdateTaskRequest.model_dump_exclude_none
    (UpdateTaskRequest.make None None None) = ∅.
Proof. reflexivity. Qed.

Lemma bson_encode_lookup (d : doc) (k : string) :
  bson_encode d !! k = bson_value <$> d !! k.
Proof. apply lookup_fmap. Qed.

Lemma bson_encode_None (d : doc) (k : string) :
  d !! k = None → bson_encode d !! k = None.
Proof. intros Hk. by rewrite bson_encode_lookup, Hk. Qed.

Lemma bson_encode_Some (d : doc) (k : string) (v : value) :
  d !! k = Some v → bson_encode d !! k = Some (bson_value v).
Proof. intros Hk. by rewrite bson_encode_lookup, Hk. Qed.

Lemma update_one_frame (q upd : doc) (c : collection) :
  Forall2 (λ d d', ∀ k, upd !! k = None → d' !! k = d !! k)
          c (Mongo.update_one q upd c).
Proof.
  induction c as [|d c IH]; simpl; [constructor|].
  destruct (decide (Mongo.matches q d)).
  - constructor.
    + intros k Hk. by rewrite lookup_union_r by by apply bson_encode_None.
    + by apply Forall_Forall2_diag, Forall_forall.
  - by constructor.
Qed.

(** ** Task updates *)

Section tasks.
Context `{P : Platform}.

(** C8.  For every existing task and every caller allowed on it (a core
    user, or the assignee), [PATCH /tasks/{id}] with no field set returns
    the stored task, serialized, and leaves the whole database, hence
    [updated_at], as it was. *)
Theorem empty_patch_is_noop (io : IO) (db : DB)
    (authorization : option string) (current : AuthUser.t)
    (task_id : string) (_id : ObjectId) (task : doc) :
  get_current_user authorization db = (Return current, db) →
  ObjectId_of_str task_id = Some _id →
  Mongo.find_one {["_id" := VObjectId _id]} (coll db "task") = Some task →
  AuthUser.role current = core
  ∨ task !! "assignee_email" = Some (VStr (AuthUser.email current)) →
  PATCH_tasks io authorization task_id
    (UpdateTaskRequest.make None None None) db
  = (Return (Some (serialize_doc task)), db).
Proof.
  intros Hauth Hid Hfind Hallowed. unfold PATCH_tasks.
  rewrite (depends_current _ _ _ _ Hauth). unfold update_task.
  rewrite Hid. run. rewrite Hfind. cbn [falsy default from_option id].
  destruct (find_one_Some _ _ _ Hfind) as [_ Hm%matches_singleton].
  rewrite bool_decide_eq_false_2
    by (intros ->; by rewrite lookup_empty in Hm).
  rewrite updates_none.
  assert (bool_decide (AuthUser.role current = employee)
          && bool_decide (get task "assignee_email" VNone
                          ≠ VStr (AuthUser.email current)) = false)
    as ->; [|done].
  destruct Hallowed as [Hcore | Hmine].
  - by rewrite Hcore.
  - unfold get. rewrite Hmine. cbn.
    rewrite (bool_decide_eq_false_2 (_ ≠ _)) by (by intros ?).
    apply andb_false_r.
Qed.

Lemma update_task_writes (io : IO) (task_id : string)
    (payload : UpdateTaskRequest.t) (current : AuthUser.t) (db : DB) :
  (update_task io task_id payload current db).2 = db
  ∨ ∃ q, (update_task io task_id payload current db).2
         = <["task" :=
               Mongo.update_one q
                 (<["updated_at" := VDatetime (utcnow io)]>
                    (UpdateTaskRequest.model_dump_exclude_none payload))
                 (coll db "task")]> db.
Proof.
  unfold update_task. run.
  repeat (case_match; simplify_eq/=; eauto).
Qed.

(** C9.  Whatever the caller, the task id and the fields of the body, a
    [PATCH /tasks/{id}] leaves every collection but [task] untouched and
    keeps the tasks in place with their [assignee_email], their [due_date]
    and every other field outside [status], [title], [description] and
    [updated_at]. *)
Theorem update_task_frame (io : IO) (db : DB)
    (authorization : option string) (task_id : string)
    (payload : UpdateTaskRequest.t) :
  let db' := (PATCH_tasks io authorization task_id payload db).2 in
  (∀ name, name ≠ "task" → db' !! name = db !! name)
  ∧ Forall2 (λ d d', d' !! "assignee_email" = d !! "assignee_email"
                     ∧ d' !! "due_date" = d !! "due_date"
                     ∧ ∀ k, k ∉ patchable → d' !! k = d !! k)
            (coll db "task") (coll db' "task").
Proof.
  intros db'. subst db'. unfold PATCH_tasks, mbind, Handler_bind.
  pose proof (get_current_user_db authorization db) as Hdb.
  destruct (get_current_user authorization db) as [[current|e] db1];
    cbn [snd] in *; subst db1.
  2:{ split; [done|]. by apply Forall_Forall2_diag, Forall_forall. }
  destruct (update_task_writes io task_id payload current db)
    as [-> | [q ->]].
  { split; [done|]. by apply Forall_Forall2_diag, Forall_forall. }
  split.
  - intros name Hname. by rewrite lookup_insert_ne.
  - unfold coll at 2. rewrite lookup_insert_eq. cbn [default from_option id].
    eapply Forall2_impl; [apply update_one_frame|].
    intros d d' Hframe. cbn beta in Hframe.
    assert (Hk : ∀ k, k ∉ patchable →
              (<["updated_at" := VDatetime (utcnow io)]>
                 (UpdateTaskRequest.model_dump_exclude_none payload) : doc)
              !! k = None).
    { intros k Hk. unfold patchable in Hk. rewrite !elem_of_cons in Hk.
      rewrite lookup_insert_ne by (intros <-; tauto).
      apply updates_keys. rewrite !elem_of_cons. tauto. }
    split; [|split].
    + apply Hframe, Hk. compute_done.
    + apply Hframe, Hk. compute_done.
    + intros k Hnot. by apply Hframe, Hk.
Qed.
End tasks.

Lemma find_one_inserted (q : doc) (c : collection) (d : doc) :
  (∀ d0, d0 ∈ c → ¬ Mongo.matches q d0) → Mongo.matches q d →
  Mongo.find_one q (c ++ [d]) = Some d.
Proof.
  intros Hfresh Hd. unfold Mongo.find_one, Mongo.find.
  rewrite filter_app. replace (filter (Mongo.matches q) c) with (@nil doc).
  - simpl. rewrite filter_cons, decide_True by done. done.
  - symmetry. induction c as [|a c IH]; [done|].
    rewrite filter_cons, decide_False.
    + apply IH. intros d0 Hd0. apply Hfresh. by right.
    + apply Hfresh. by left.
Qed.

(** ** Salary payments *)

Section salary.
Context `{P : Platform}.

(** C10.  For every core-authenticated [POST /salary] whose body leaves
    [status] out: when the amount passes the schema the record appended to
    [salarypayment] has [status] ["paid"], and so has the document returned
    when the generated id is fresh; when it does not, nothing is created. *)
Theorem salary_status_defaults_to_paid (io : IO) (db : DB)
    (authorization : option string) (current : AuthUser.t)
    (body : CreateSalaryRequest.body) :
  get_current_user authorization db = (Return current, db) →
  AuthUser.role current = core →
  CreateSalaryRequest.body_status body = None →
  let out := POST_salary io authorization body db in
  (Field_ge float_0 (CreateSalaryRequest.body_amount body) = true →
   ∃ d : doc, coll out.2 "salarypayment" = (coll db "salarypayment" ++ [d])%list
        ∧ d !! "status" = Some (VStr "paid")
        ∧ (ObjectId_of_str (oid_str (new_ObjectId io))
           = Some (new_ObjectId io) →
           (∀ d0, d0 ∈ coll db "salarypayment" →
                  d0 !! "_id" ≠ Some (VObjectId (new_ObjectId io))) →
           out.1 = Return (Some (serialize_doc d))
           ∧ serialize_doc d !! "status" = Some (VStr "paid")))
  ∧ (Field_ge float_0 (CreateSalaryRequest.body_amount body) = false →
     out = (Raise ValidationError, db)).
Proof.
  intros Hauth Hrole Hstatus out. subst out. unfold POST_salary.
  rewrite (depends_current _ _ _ _ Hauth). unfold create_salary.
  rewrite Hrole. rewrite bool_decide_eq_false_2 by (intros ?; done).
  unfold CreateSalaryRequest.of_body. rewrite Hstatus.
  cbn [default from_option id CreateSalaryRequest.employee_email
       CreateSalaryRequest.amount CreateSalaryRequest.month
       CreateSalaryRequest.notes CreateSalaryRequest.status].
  unfold SalaryPayment.validate. cbn [SalaryPayment.amount].
  split; intros Hamount; rewrite Hamount; run; [|done].
  unfold Mongo.insert_one.
  set (data := SalaryPayment.model_dump _).
  set (stamped := <["updated_at" := _]> (<["created_at" := _]> data)).
  assert (Hnoid : stamped !! "_id" = None) by reflexivity.
  assert (Hpaid : stamped !! "status" = Some (VStr "paid")) by reflexivity.
  rewrite Hnoid. unfold ObjectId_new.
  set (stored := bson_encode (<["_id" := VObjectId (new_ObjectId io)]> stamped)).
  assert (Hstatus' : stored !! "status" = Some (VStr "paid")).
  { unfold stored. rewrite bson_encode_lookup, lookup_insert_ne by done.
    by rewrite Hpaid. }
  assert (Hid' : stored !! "_id" = Some (VObjectId (new_ObjectId io))).
  { unfold stored. by rewrite bson_encode_lookup, lookup_insert_eq. }
  exists stored.
  split; [|split].
  - destruct (ObjectId_of_str _); cbn [fst snd]; unfold coll;
      by rewrite lookup_insert_eq.
  - exact Hstatus'.
  - intros Hvalid Hfresh. rewrite Hvalid. cbn [fst snd].
    unfold coll at 1. rewrite lookup_insert_eq. cbn [default from_option id].
    rewrite find_one_inserted.
    + split; [done|]. rewrite serialize_doc_lookup.
      by rewrite Hstatus'.
    + intros d0 Hd0 Hm%matches_singleton. by apply (Hfresh d0).
    + apply matches_singleton. exact Hid'.
Qed.
End salary.

(** ** The concrete platform meets the assumptions *)

Lemma nibble_hex (b0 b1 b2 b3 : bool) :
  Py.is_hex_lower (Demo.nibble b0 b1 b2 b3) = true.
Proof. by destruct b0, b1, b2, b3. Qed.

Lemma nibble_inj (a0 a1 a2 a3 b0 b1 b2 b3 : bool) :
  Demo.nibble a0 a1 a2 a3 = Demo.nibble b0 b1 b2 b3 →
  a0 = b0 ∧ a1 = b1 ∧ a2 = b2 ∧ a3 = b3.
Proof. by destruct a0, a1, a2, a3, b0, b1, b2, b3. Qed.

Lemma demo_hex_digest : hex_digest Demo.platform.
Proof.
  intros s. cbn. induction s as [|[a0 a1 a2 a3 a4 a5 a6 a7] s IH]; [done|].
  cbn [Demo.hexlify Py.all]. by rewrite !nibble_hex, IH.
Qed.

Lemma demo_no_collision (a b : string) : no_collision Demo.platform a b.
Proof.
  revert a b. intros a. unfold no_collision. cbn.
  induction a as [|[a0 a1 a2 a3 a4 a5 a6 a7] a IH];
    intros [|[b0 b1 b2 b3 b4 b5 b6 b7] b]; cbn [Demo.hexlify]; try done.
  intros [= Hhi Hlo Htl].
  apply nibble_inj in Hhi as (-> & -> & -> & ->).
  apply nibble_inj in Hlo as (-> & -> & -> & ->).
  f_equal. by apply IH.
Qed.

Lemma demo_unique_email : unique_email (coll Demo.db "user").
Proof.
  change (coll Demo.db "user") with [Demo.ada; Demo.bob].
  intros d1 d2 e Hd1 Hd2 He1 He2.
  rewrite !elem_of_cons, elem_of_nil in Hd1, Hd2.
  destruct Hd1 as [-> | [-> | []]], Hd2 as [-> | [-> | []]];
    try done; vm_compute in He1, He2; congruence.
Qed.

Lemma demo_auth_ada :
  @get_current_user Demo.platform (Demo.bearer Demo.ada_token) Demo.db
  = (Return (AuthUser.make "ada@corp.io" core "Ada"), Demo.db).
Proof. compute_done. Qed.

Lemma demo_auth_bob :
  @get_current_user Demo.platform (Demo.bearer Demo.bob_token) Demo.db
  = (Return (AuthUser.make "bob@corp.io" employee "Bob"), Demo.db).
Proof. compute_done. Qed.

(** ** The statements on concrete requests *)

Lemma register_ignores_credentials_witness :
  @get_current_user Demo.platform (Demo.bearer Demo.ada_token) Demo.db
  = (Return (AuthUser.make "ada@corp.io" core "Ada"), Demo.db)
  ∧ @POST_auth_register Demo.platform Demo.io (Demo.bearer Demo.ada_token)
      Demo.eve Demo.db
    = (Raise (HTTPException 401 "Authentication required"), Demo.db).
Proof.
  split; [exact demo_auth_ada|].
  exact (@register_ignores_credentials Demo.platform Demo.io Demo.db
           (Demo.bearer Demo.ada_token) _ Demo.eve demo_auth_ada).
Defined.

Lemma register_bootstrap_iff_witness :
  (@POST_auth_register Demo.platform Demo.io None Demo.eve ∅).1
  = Return (AuthUser.make "eve@corp.io" core "Eve")
  ∧ @POST_auth_register Demo.platform Demo.io None Demo.eve Demo.db
    = (Raise (HTTPException 401 "Authentication required"), Demo.db).
Proof.
  pose proof (@register_bootstrap_iff Demo.platform Demo.io ∅ None Demo.eve)
    as Hempty.
  pose proof (@register_bootstrap_iff Demo.platform Demo.io Demo.db None
                Demo.eve) as Hfull.
  cbv zeta in Hempty, Hfull.
  destruct Hempty as (_ & Hboot & _), Hfull as (_ & _ & Hdeny).
  split.
  - exact (proj1 (Hboot eq_refl)).
  - apply Hdeny. compute_done.
Defined.

Lemma report_hours_violation_is_500_witness :
  SFltb float_24 (CreateReportRequest.hours_worked Demo.long_day) = true
  ∧ ∃ e, @POST_reports Demo.platform Demo.io (Demo.bearer Demo.bob_token)
           Demo.long_day Demo.db = (Raise e, Demo.db)
         ∧ (e = ValueError ∨ e = ValidationError)
         ∧ status_code_of (Raise e : result (option doc)) = 500%Z.
Proof.
  split; [reflexivity|].
  exact (@report_hours_violation_is_500 Demo.platform Demo.io Demo.db
           (Demo.bearer Demo.bob_token) _ Demo.long_day demo_auth_bob
           eq_refl (or_intror eq_refl)).
Defined.

Lemma finance_forbidden_to_employees_witness :
  @POST_finance Demo.platform Demo.io (Demo.bearer Demo.bob_token)
    Demo.rent Demo.db
  = (Raise (HTTPException 403 "Only core can add finance records"), Demo.db)
  ∧ @GET_finance Demo.platform (Demo.bearer Demo.bob_token) Demo.db
    = (Raise (HTTPException 403 "Only core can view finance records"),
       Demo.db).
Proof.
  exact (@finance_forbidden_to_employees Demo.platform Demo.io Demo.db
           (Demo.bearer Demo.bob_token) _ Demo.rent demo_auth_bob eq_refl).
Defined.

Lemma employee_lists_own_tasks_witness :
  ∃ docs,
    @GET_tasks Demo.platform (Demo.bearer Demo.bob_token)
      (Some "ada@corp.io") Demo.db = (Return docs, Demo.db)
    ∧ ∀ d, d ∈ docs → d !! "assignee_email" = Some (VStr "bob@corp.io").
Proof.
  exact (@employee_lists_own_tasks Demo.platform Demo.db
           (Demo.bearer Demo.bob_token) _ (Some "ada@corp.io")
           demo_auth_bob eq_refl).
Defined.

Lemma login_token_round_trip_witness :
  ∃ token,
    @POST_auth_login Demo.platform (LoginRequest.make "bob@corp.io" "pw2")
      Demo.db
    = (Return (TokenResponse.make token
                 (AuthUser.make "bob@corp.io" employee "Bob")), Demo.db)
    ∧ @get_current_user Demo.platform (Some ("Bearer " +:+ token)) Demo.db
      = (Return (AuthUser.make "bob@corp.io" employee "Bob"), Demo.db).
Proof.
  apply (@login_token_round_trip Demo.platform Demo.db Demo.bob
           "bob@corp.io" "pw2" "Bob" employee).
  - exact demo_hex_digest.
  - split; [done | reflexivity].
  - compute_done.
  - exact demo_unique_email.
  - reflexivity.
  - reflexivity.
  - reflexivity.
  - reflexivity.
  - reflexivity.
Defined.

Lemma password_change_invalidates_token_witness :
  @POST_auth_login Demo.platform (LoginRequest.make "bob@corp.io" "pw2")
    Demo.db
  = (Return (TokenResponse.make Demo.bob_token
               (AuthUser.make "bob@corp.io" employee "Bob")), Demo.db)
  ∧ ∃ detail,
      @get_current_user Demo.platform (Demo.bearer Demo.bob_token)
        Demo.db_rehashed
      = (Raise (HTTPException 401 detail), Demo.db_rehashed).
Proof.
  assert (Hlogin :
    @POST_auth_login Demo.platform (LoginRequest.make "bob@corp.io" "pw2")
      Demo.db
    = (Return (TokenResponse.make Demo.bob_token
                 (AuthUser.make "bob@corp.io" employee "Bob")), Demo.db))
    by compute_done.
  split; [exact Hlogin|].
  refine (@password_change_invalidates_token Demo.platform Demo.db
            Demo.db_rehashed (LoginRequest.make "bob@corp.io" "pw2")
            (TokenResponse.make Demo.bob_token
               (AuthUser.make "bob@corp.io" employee "Bob"))
            demo_hex_digest _ Hlogin _).
  - split; [done | reflexivity].
  - change (coll Demo.db_rehashed "user")
      with [Demo.ada; Demo.bob_rehashed].
    intros d Hd He. rewrite !elem_of_cons, elem_of_nil in Hd.
    destruct Hd as [-> | [-> | []]].
    + vm_compute in He. congruence.
    + exists (Demo.hexlify "pw3").
      split; [reflexivity | split; [compute_done | apply demo_no_collision]].
Defined.

Lemma empty_patch_is_noop_witness :
  @PATCH_tasks Demo.platform Demo.io (Demo.bearer Demo.bob_token)
    "65F0000000000000000000C1" (UpdateTaskRequest.make None None None)
    Demo.db
  = (Return (Some (serialize_doc Demo.task_of_bob)), Demo.db).
Proof.
  apply (@empty_patch_is_noop Demo.platform Demo.io Demo.db
           (Demo.bearer Demo.bob_token) _ "65F0000000000000000000C1"
           (mkObjectId "65f0000000000000000000c1") Demo.task_of_bob
           demo_auth_bob).
  - reflexivity.
  - compute_done.
  - right. reflexivity.
Defined.

Lemma update_task_frame_witness :
  Forall2 (λ d d' : doc,
             d' !! "assignee_email" = d !! "assignee_email"
             ∧ d' !! "due_date" = d !! "due_date"
             ∧ ∀ k, k ∉ patchable → d' !! k = d !! k)
    (coll Demo.db "task")
    (coll (@PATCH_tasks Demo.platform Demo.io (Demo.bearer Demo.ada_token)
             "65f0000000000000000000c1" Demo.mark_done Demo.db).2 "task").
Proof.
  exact (proj2 (@update_task_frame Demo.platform Demo.io Demo.db
                  (Demo.bearer Demo.ada_token) "65f0000000000000000000c1"
                  Demo.mark_done)).
Defined.

Lemma salary_status_defaults_to_paid_witness :
  ∃ d : doc,
    coll (@POST_salary Demo.platform Demo.io (Demo.bearer Demo.ada_token)
            Demo.may_salary Demo.db).2 "salarypayment" = [d]
    ∧ d !! "status" = Some (VStr "paid")
    ∧ (@POST_salary Demo.platform Demo.io (Demo.bearer Demo.ada_token)
         Demo.may_salary Demo.db).1 = Return (Some (serialize_doc d)).
Proof.
  pose proof (@salary_status_defaults_to_paid Demo.platform Demo.io Demo.db
                (Demo.bearer Demo.ada_token) _ Demo.may_salary
                demo_auth_ada eq_refl eq_refl) as Hpaid.
  cbv zeta in Hpaid. destruct Hpaid as [Hvalid _].
  destruct (Hvalid eq_refl) as (d & Hstored & Hstatus & Hanswer).
  exists d. split; [exact Hstored|]. split; [exact Hstatus|].
  apply Hanswer; [reflexivity|].
  intros d0 Hd0. change (coll Demo.db "salarypayment") with (@nil doc) in Hd0.
  apply elem_of_nil in Hd0. destruct Hd0.
Defined.

(** * Further properties of the handlers *)

Lemma split_two (sep : ascii) (s a b : string) :
  Py.split sep s = [a; b] →
  s = a +:+ String sep b ∧ Py.contains sep a = false.
Proof.
  revert a. induction s as [|c s IH]; intros a; simpl; [done|].
  destruct (decide (c = sep)) as [->|Hne].
  - intros [= <- <-]. done.
  - destruct (Py.split sep s) as [|h [|t []]] eqn:Hs; try done.
    intros [= <- <-]. destruct (IH h eq_refl) as [-> Hh].
    split; [done|]. simpl. by rewrite decide_False.
Qed.

Lemma split_length (sep : ascii) (s : string) :
  (if Py.contains sep s then length (Py.split sep s) = 2%nat
   else Py.split sep s = [s]).
Proof.
  induction s as [|c s IH]; simpl; [done|].
  destruct (decide (c = sep)); [done|].
  destruct (Py.contains sep s).
  - by destruct (Py.split sep s) as [|h [|t []]].
  - by rewrite IH.
Qed.

Lemma Role_of_value_Some (v : value) (r : Role) :
  Role_of_value v = Some r → v = VStr (Role_str r).
Proof.
  destruct v as [| |s| | | |]; try done. simpl.
  repeat case_decide; intros [= <-]; by subst.
Qed.

Lemma AuthUser_validate_Return (e r n : value) (a : AuthUser.t) :
  AuthUser.validate e r n = Return a →
  e = VStr (AuthUser.email a) ∧ r = VStr (Role_str (AuthUser.role a))
  ∧ n = VStr (AuthUser.name a).
Proof.
  unfold AuthUser.validate. destruct e; try done.
  destruct (Role_of_value r) as [ro|] eqn:Hr; [|done].
  destruct n; try done. intros [= <-].
  by rewrite (Role_of_value_Some _ _ Hr).
Qed.

Section authx.
Context `{P : Platform}.

Lemma parse_token_total (token : string) :
  match parse_token token with
  | Return None => token = "" ∨ Py.contains ":" token = false
  | Return (Some email) =>
      ∃ h, token = h +:+ ":" +:+ email ∧ Py.contains ":" h = false
  | Raise _ => False
  end.
Proof.
  unfold parse_token. destruct token as [|c t] eqn:Ht; [by left|].
  rewrite <- Ht. assert (Py.truthy token = true) as -> by by subst.
  cbn [negb orb]. pose proof (split_length ":" token) as Hlen.
  destruct (Py.contains ":" token); cbn [negb]; [|by right].
  destruct (Py.split ":" token) as [|h [|e []]] eqn:Hs; try done.
  exists h. by apply split_two.
Qed.

(** X1.  A header that [get_current_user] accepts carries, after its first
    space and stripped, exactly [make_token email h] for an active user
    document of the store with that email, password hash [h] and the
    returned role: no other token is accepted. *)
Theorem authentication_sound (authorization : string) (db db' : DB)
    (current : AuthUser.t) :
  hex_digest P →
  get_current_user (Some authorization) db = (Return current, db') →
  ∃ (u : doc) (h rest : string),
    u ∈ coll db "user"
    ∧ u !! "email" = Some (VStr (AuthUser.email current))
    ∧ u !! "is_active" = Some (VBool true)
    ∧ u !! "password_hash" = Some (VStr h)
    ∧ u !! "role" = Some (VStr (Role_str (AuthUser.role current)))
    ∧ Py.split " " authorization !! 1%nat = Some rest
    ∧ Py.strip rest = make_token (AuthUser.email current) h.
Proof.
  intros Hh. unfold get_current_user. run.
  destruct (negb _ || negb _); [done|]. unfold index.
  destruct (Py.split " " authorization !! 1%nat) as [rest|]; [|done].
  pose proof (parse_token_total (Py.strip rest)) as Hparse.
  destruct (parse_token (Py.strip rest)) as [[email|]|]; try done.
  destruct Hparse as (g & Htoken & Hg).
  destruct (negb (Py.truthy email)); [done|].
  destruct (Mongo.find_one _ _) as [u|] eqn:Hfind; [|done].
  cbn [falsy default from_option id]. case_bool_decide; [done|].
  apply find_one_Some in Hfind as [Hin [He Ha]%matches_email_active].
  unfold getitem. rewrite He.
  destruct (u !! "password_hash") as [[| |h| | | |]|] eqn:Hph; try done.
  cbn [as_str]. rewrite token_split by done. cbn [lookup list_lookup].
  rewrite Htoken.
  change (g +:+ ":" +:+ email) with (g +:+ String ":" email).
  rewrite split_at_first by done. cbn [lookup list_lookup].
  case_bool_decide as Hsig; [done|].
  destruct (u !! "role") as [vr|] eqn:Hrole; [|done].
  destruct (AuthUser.validate _ _ _) as [a|] eqn:Hval; [|done].
  intros [= -> _]. apply AuthUser_validate_Return in Hval as ([= <-] & -> & _).
  exists u, h, rest. repeat split; try done.
  by rewrite Htoken, Hsig.
Qed.
End authx.

Lemma find_one_no_match (q : doc) (c : collection) :
  (∀ d, d ∈ c → ¬ Mongo.matches q d) → Mongo.find_one q c = None.
Proof.
  intros Hno. destruct (Mongo.find_one q c) as [d|] eqn:Hd; [|done].
  apply find_one_Some in Hd as [Hin Hm]. by destruct (Hno d Hin).
Qed.

Lemma lower_app (s t : string) :
  Py.lower (s +:+ t) = Py.lower s +:+ Py.lower t.
Proof.
  induction s as [|c s IH]; [done|].
  change (String (Py.lower_char c) (Py.lower (s +:+ t))
          = String (Py.lower_char c) (Py.lower s +:+ Py.lower t)).
  by rewrite IH.
Qed.

Lemma lower_char_space (c : ascii) :
  Py.lower_char c = " "%char → c = " "%char.
Proof. destruct c as [[] [] [] [] [] [] [] []]; vm_compute; congruence. Qed.

Lemma contains_space_lower (s : string) :
  Py.contains " " (Py.lower s) = Py.contains " " s.
Proof.
  induction s as [|c s IH]; [done|]. simpl. rewrite IH.
  destruct (decide (c = " "%char)) as [->|Hc]; [done|].
  rewrite decide_False; [done|]. intros Hl. by apply Hc, lower_char_space.
Qed.

Section authy.
Context `{P : Platform}.

(** X2.  [get_current_user] never writes to the database, and every
    [HTTPException] it raises has status 401. *)
Theorem authentication_failures (authorization : option string) (db : DB) :
  (get_current_user authorization db).2 = db
  ∧ ∀ s detail,
      (get_current_user authorization db).1 = Raise (HTTPException s detail) →
      s = 401%Z.
Proof.
  split; [apply get_current_user_db|].
  intros s detail. unfold get_current_user, getitem, index, as_str. run.
  unfold parse_token, AuthUser.validate.
  repeat (case_match; simplify_eq/=; try done); by intros [= <- _].
Qed.

(** X3.  No header, a header that does not start with "bearer "
    (whatever the case), a token without a colon and a token with nothing
    after its only colon are all refused with 401, the first two as a
    missing or invalid header, the last two as an invalid token. *)
Theorem malformed_authorization_is_401 (db : DB) :
  get_current_user None db
  = (Raise (HTTPException 401 "Missing or invalid Authorization header"), db)
  ∧ (∀ a, Py.startswith (Py.lower a) "bearer " = false →
          get_current_user (Some a) db
          = (Raise (HTTPException 401
                      "Missing or invalid Authorization header"), db))
  ∧ (∀ t, Py.contains ":" (Py.strip t) = false
          ∨ (∃ h, Py.strip t = h +:+ ":" ∧ Py.contains ":" h = false) →
          get_current_user (Some ("Bearer " +:+ t)) db
          = (Raise (HTTPException 401 "Invalid token"), db)).
Proof.
  split; [done|]. split.
  - intros a Ha. unfold get_current_user. rewrite Ha.
    by rewrite orb_true_r.
  - intros t Ht. unfold get_current_user.
    rewrite bearer_prefix, bearer_split, bearer_truthy. unfold index. run.
    cbn [negb orb lookup list_lookup]. unfold parse_token.
    destruct Ht as [Hno | (h & -> & Hh)].
    + rewrite Hno. by rewrite orb_true_r.
    + change (h +:+ ":") with (h +:+ String ":" "").
      rewrite contains_sep, split_at_first by done.
      by destruct h.
Qed.

(** X4.  [POST /auth/login] never writes; an email with no active user
    and a wrong password get the same answer, 401 "Invalid credentials". *)
Theorem login_rejections (db : DB) (payload : LoginRequest.t) :
  (POST_auth_login payload db).2 = db
  ∧ ((∀ d, d ∈ coll db "user" →
           d !! "email" = Some (VStr (LoginRequest.email payload)) →
           d !! "is_active" ≠ Some (VBool true)) →
     POST_auth_login payload db
     = (Raise (HTTPException 401 "Invalid credentials"), db))
  ∧ (∀ u v,
       Mongo.find_one
         (<["is_active" := VBool true]>
            {["email" := VStr (LoginRequest.email payload)]})
         (coll db "user") = Some u →
       u !! "password_hash" = Some v →
       v ≠ VStr (hash_password (LoginRequest.password payload)) →
       POST_auth_login payload db
       = (Raise (HTTPException 401 "Invalid credentials"), db)).
Proof.
  split; [|split].
  - unfold POST_auth_login, login, getitem, as_str. run.
    repeat (case_match; simplify_eq/=; try done).
  - intros Hnone. unfold POST_auth_login, login. run.
    rewrite find_one_no_match; [done|].
    intros d Hd [He Ha]%matches_email_active. by apply (Hnone d).
  - intros u v Hfind Hv Hne. unfold POST_auth_login, login, getitem. run.
    rewrite Hfind. cbn [falsy default from_option id].
    apply find_one_Some in Hfind as [_ [He _]%matches_email_active].
    rewrite bool_decide_eq_false_2
      by (intros ->; by rewrite lookup_empty in He).
    rewrite Hv. by rewrite bool_decide_eq_true_2.
Qed.

(** X5.  A token that names an email with no active user document is
    refused with 401 "User not found or inactive", whatever its digest. *)
Theorem inactive_user_token_rejected (db : DB) (email t : string) :
  (∀ d, d ∈ coll db "user" → d !! "email" = Some (VStr email) →
        d !! "is_active" ≠ Some (VBool true)) →
  parse_token (Py.strip t) = Return (Some email) → email ≠ "" →
  get_current_user (Some ("Bearer " +:+ t)) db
  = (Raise (HTTPException 401 "User not found or inactive"), db).
Proof.
  intros Hnone Hparse Hne. unfold get_current_user.
  rewrite bearer_prefix, bearer_split, bearer_truthy. unfold index. run.
  cbn [negb orb lookup list_lookup]. rewrite Hparse.
  assert (Py.truthy email = true) as -> by by destruct email.
  cbn [negb]. rewrite find_one_no_match; [done|].
  intros d Hd [He Ha]%matches_email_active. by apply (Hnone d).
Qed.

(** X6.  The scheme of the [Authorization] header is matched without
    regard to case: any spelling of "bearer" gives the answer of
    "Bearer". *)
Theorem bearer_scheme_any_case (scheme t : string) (db : DB) :
  Py.lower scheme = "bearer" →
  get_current_user (Some (scheme +:+ " " +:+ t)) db
  = get_current_user (Some ("Bearer " +:+ t)) db.
Proof.
  intros Hs.
  assert (Hsp : Py.contains " " scheme = false).
  { by rewrite <- contains_space_lower, Hs. }
  unfold get_current_user.
  rewrite bearer_prefix, bearer_split, bearer_truthy.
  rewrite lower_app, Hs.
  change (" " +:+ t) with (String " " t).
  rewrite split_at_first by done.
  assert (Py.truthy (scheme +:+ String " " t) = true) as ->
    by by destruct scheme.
  assert (Py.startswith ("bearer" +:+ Py.lower (String " " t)) "bearer "
          = true) as ->; [|done].
  unfold Py.startswith. simpl. by destruct (Py.lower t).
Qed.
End authy.

(** X7.  A token issued under one server secret is refused with 401 by a
    process that runs with another secret and the same digest function,
    when the stored hashes are digests and the digest does not collide on
    the two texts compared: the one of the stored hash under the new
    secret and the one of the token under the old secret. *)
Theorem secret_change_invalidates_token (P1 P2 : Platform) (db : DB)
    (email password : string) :
  @sha256_hexdigest P1 = @sha256_hexdigest P2 →
  @SECRET P1 ≠ @SECRET P2 →
  hex_digest P2 → address email →
  (∀ d, d ∈ coll db "user" → d !! "email" = Some (VStr email) →
        ∃ pw, d !! "password_hash" = Some (VStr (@hash_password P2 pw))
              ∧ no_collision P2
                  (@token_text P2 email (@hash_password P2 pw))
                  (@token_text P1 email (@hash_password P1 password))) →
  ∃ detail,
    @get_current_user P2
      (Some ("Bearer "
             +:+ @make_token P1 email (@hash_password P1 password))) db
    = (Raise (HTTPException 401 detail), db).
Proof.
  intros Hsame Hsecret Hh [Hne Hsp] Hdocs.
  assert (Hh1 : hex_digest P1).
  { intros s. rewrite Hsame. apply Hh. }
  unfold get_current_user.
  rewrite bearer_prefix, bearer_split, bearer_truthy.
  unfold getitem, index. run. cbn [negb orb lookup list_lookup].
  rewrite (@token_strip P1) by done.
  rewrite (@token_parse P1) by done. cbn beta iota.
  assert (Htr : Py.truthy email = true) by (by destruct email).
  rewrite Htr. cbn [negb orb].
  destruct (Mongo.find_one _ _) as [u|] eqn:Hf; cbn [falsy]; [|by eexists].
  case_bool_decide; [by eexists|]. cbn [default from_option id].
  apply find_one_Some in Hf as [Hin [He Ha]%matches_email_active].
  destruct (Hdocs u Hin He) as (pw & Hpw & Hnc).
  rewrite He, Hpw. cbn [as_str].
  rewrite (@token_split P2), (@token_split P1) by done.
  cbn [lookup list_lookup]. rewrite bool_decide_eq_true_2; [by eexists|].
  rewrite Hsame. intros Heq. apply Hsecret.
  assert (Htext : @token_text P1 email (@hash_password P1 password)
                  = @token_text P2 email (@hash_password P2 pw)).
  { symmetry. exact (Hnc (eq_sym Heq)). }
  unfold token_text in Htext.
  apply (inj (String.app email)) in Htext.
  apply (inj (String.app ":")) in Htext.
  assert (Hsplit : Py.split ":" (@hash_password P1 password
                                 +:+ String ":" (@SECRET P1))
                   = Py.split ":" (@hash_password P2 pw
                                   +:+ String ":" (@SECRET P2)))
    by (f_equal; exact Htext).
  rewrite !split_at_first in Hsplit
    by (apply digest_no_colon; done).
  by injection Hsplit.
Qed.

Section registerx.
Context `{P : Platform}.

(** X8.  [parse_token] never raises; it returns [None] exactly for the
    empty string and for a token without a colon, and [Some email] exactly
    when the token is [h:email] with no colon in [h] (the split is at the
    first colon, so an email may hold colons). *)
Theorem parse_token_spec (token : string) :
  (parse_token token = Return None
   ↔ token = "" ∨ Py.contains ":" token = false)
  ∧ (∀ email, parse_token token = Return (Some email)
              ↔ ∃ h, token = h +:+ ":" +:+ email
                     ∧ Py.contains ":" h = false)
  ∧ (∀ e, parse_token token ≠ Raise e).
Proof.
  pose proof (parse_token_total token) as Htot.
  split; [|split].
  - split.
    + intros Hp. by rewrite Hp in Htot.
    + intros [-> | Hno]; [done|]. unfold parse_token. rewrite Hno.
      by rewrite orb_true_r.
  - intros email. split.
    + intros Hp. by rewrite Hp in Htot.
    + intros (h & -> & Hh). unfold parse_token.
      change (h +:+ ":" +:+ email) with (h +:+ String ":" email).
      rewrite contains_sep, split_at_first by done. by destruct h.
  - intros e Hp. by rewrite Hp in Htot.
Qed.

(** X10.  After any [POST /auth/register] the user collection is not
    empty, so every later [POST /auth/register] is refused with 401 and
    writes nothing: the route registers one user at most. *)
Theorem second_registration_fails (io1 io2 : IO)
    (authorization1 authorization2 : option string)
    (body1 body2 : RegisterRequest.body) (db : DB) :
  let db1 := (POST_auth_register io1 authorization1 body1 db).2 in
  coll db1 "user" ≠ []
  ∧ POST_auth_register io2 authorization2 body2 db1
    = (Raise (HTTPException 401 "Authentication required"), db1).
Proof.
  intros db1.
  assert (Hne : coll db1 "user" ≠ []).
  { subst db1. unfold POST_auth_register.
    change (mret None ≫= _)
      with (register_user io1 (RegisterRequest.of_body body1) None).
    destruct (coll db "user") as [|u c] eqn:Hc.
    - rewrite (register_user_bootstrap _ _ _ _ Hc). cbn [snd].
      unfold coll. by rewrite lookup_insert_eq.
    - rewrite register_user_unauthenticated by by rewrite Hc.
      cbn [snd]. by rewrite Hc. }
  split; [done|]. unfold POST_auth_register.
  by apply register_user_unauthenticated.
Qed.

(** X11.  [register_user] called with an identity, users existing: an
    employee is refused with 403; a core user whose request repeats a
    registered email is refused with 400; neither writes. *)
Theorem register_user_refusals (io : IO) (payload : RegisterRequest.t)
    (current : AuthUser.t) (db : DB) :
  coll db "user" ≠ [] →
  (AuthUser.role current = employee →
   register_user io payload (Some current) db
   = (Raise (HTTPException 403 "Only core can create users"), db))
  ∧ (AuthUser.role current = core →
     (∃ d, d ∈ coll db "user"
           ∧ d !! "email" = Some (VStr (RegisterRequest.email payload))) →
     register_user io payload (Some current) db
     = (Raise (HTTPException 400 "Email already registered"), db)).
Proof.
  intros Hne. split.
  - intros Hrole. unfold register_user. run. rewrite count_documents_all.
    destruct (coll db "user"); [done|]. by rewrite Hrole.
  - intros Hrole (d & Hd & He). unfold register_user. run.
    rewrite count_documents_all.
    assert ((0 <? length (coll db "user"))%nat = true) as ->.
    { destruct (coll db "user"); [done|]. reflexivity. }
    rewrite Hrole. rewrite bool_decide_eq_false_2 by (by intros ?).
    destruct (Mongo.find_one _ (coll db "user")) as [d0|] eqn:Hfind.
    + apply find_one_Some in Hfind as [_ Hm%matches_singleton].
      cbn [falsy negb]. rewrite bool_decide_eq_false_2; [done|].
      intros ->. by rewrite lookup_empty in Hm.
    + exfalso. apply (find_one_None _ _ Hfind d Hd).
      by apply matches_singleton.
Qed.
End registerx.

Lemma find_singleton (k : string) (v : value) (c : collection) :
  Mongo.find {[k := v]} c = filter (λ d : doc, d !! k = Some v) c.
Proof.
  unfold Mongo.find. apply list_filter_iff. intros d.
  apply matches_singleton.
Qed.

Lemma find_one_update_one (q upd : doc) (c : collection) (d : doc) :
  Mongo.find_one q c = Some d → Mongo.matches q (bson_encode upd ∪ d) →
  Mongo.find_one q (Mongo.update_one q upd c) = Some (bson_encode upd ∪ d).
Proof.
  unfold Mongo.find_one, Mongo.find.
  induction c as [|a c IH]; [done|]. simpl. rewrite filter_cons.
  destruct (decide (Mongo.matches q a)) as [Ha|Ha].
  - intros [= ->] Hm. by rewrite filter_cons, decide_True.
  - intros Hd Hm. rewrite filter_cons, decide_False by done. by apply IH.
Qed.

Lemma coll_insert_eq (db : DB) (name : string) (c : collection) :
  coll (<[name := c]> db) name = c.
Proof. unfold coll. by rewrite lookup_insert_eq. Qed.

Lemma coll_insert_ne (db : DB) (name other : string) (c : collection) :
  name ≠ other → coll (<[name := c]> db) other = coll db other.
Proof. intros Hne. unfold coll. by rewrite lookup_insert_ne. Qed.

Section frame.
Context `{P : Platform}.

Lemma get_current_user_frame (authorization : option string)
    (db1 db2 : DB) :
  coll db1 "user" = coll db2 "user" →
  (get_current_user authorization db1).1
  = (get_current_user authorization db2).1.
Proof.
  intros Heq. unfold get_current_user. run.
  destruct authorization as [a|]; [|done].
  destruct (negb _ || negb _); [done|]. cbn beta.
  destruct (index _ 1) as [rest|]; [|done]. cbn beta iota.
  destruct (parse_token _) as [[email|]|]; try done. cbn beta iota.
  destruct (negb (Py.truthy email)); [done|]. cbn beta iota.
  rewrite Heq.
  repeat (case_match; simplify_eq/=; try done).
Qed.
End frame.

Section tasksx.
Context `{P : Platform}.

Lemma authenticated_after_write (authorization : option string)
    (db db' : DB) (current : AuthUser.t) :
  get_current_user authorization db = (Return current, db) →
  coll db' "user" = coll db "user" →
  get_current_user authorization db' = (Return current, db').
Proof.
  intros Hauth Husers.
  pose proof (get_current_user_db authorization db') as Hdb.
  pose proof (get_current_user_frame authorization db' db Husers) as Hfr.
  rewrite Hauth in Hfr. destruct (get_current_user authorization db').
  cbn in *. by subst.
Qed.

Lemma create_document_appends (io : IO) (name : string) (data : doc)
    (db : DB) :
  data !! "_id" = None →
  create_document io name data db
  = (Return (oid_str (new_ObjectId io)),
     <[name :=
         (coll db name
          ++ [bson_encode
                (<["_id" := VObjectId (new_ObjectId io)]>
                   (<["updated_at" := VDatetime (utcnow io)]>
                      (<["created_at" := VDatetime (utcnow io)]> data)))])%list]>
       db).
Proof.
  intros Hid. unfold create_document, Mongo.insert_one.
  by rewrite !lookup_insert_ne, Hid by done.
Qed.

Lemma create_task_core (io : IO) (db : DB)
    (authorization : option string) (current : AuthUser.t)
    (payload : CreateTaskRequest.t) :
  get_current_user authorization db = (Return current, db) →
  AuthUser.role current = core →
  ∃ d : doc,
    (POST_tasks io authorization payload db).2
    = <["task" := (coll db "task" ++ [d])%list]> db
    ∧ d !! "_id" = Some (VObjectId (new_ObjectId io))
    ∧ d !! "status" = Some (VStr "pending")
    ∧ d !! "title" = Some (VStr (CreateTaskRequest.title payload))
    ∧ d !! "description"
      = Some (opt_str (CreateTaskRequest.description payload))
    ∧ d !! "assignee_email"
      = Some (VStr (CreateTaskRequest.assignee_email payload))
    ∧ d !! "due_date"
      = Some (match CreateTaskRequest.due_date payload with
              | Some s => if Py.truthy s then VStr s else VNone
              | None => VNone
              end)
    ∧ (ObjectId_of_str (oid_str (new_ObjectId io))
       = Some (new_ObjectId io) →
       (∀ d0, d0 ∈ coll db "task" →
              d0 !! "_id" ≠ Some (VObjectId (new_ObjectId io))) →
       (POST_tasks io authorization payload db).1
       = Return (Some (serialize_doc d))).
Proof.
  intros Hauth Hrole. unfold POST_tasks.
  rewrite (depends_current _ _ _ _ Hauth). unfold create_task.
  rewrite Hrole, bool_decide_eq_false_2 by (by intros ?).
  set (data := match CreateTaskRequest.due_date payload with
               | Some s => _ | None => _ end).
  assert (Hid : data !! "_id" = None).
  { subst data. destruct (CreateTaskRequest.due_date payload) as [s|];
      [destruct (Py.truthy s)|]; reflexivity. }
  unfold mbind, Handler_bind. rewrite (create_document_appends _ _ _ _ Hid).
  set (d := bson_encode (<["_id" := _]> _)). exists d.
  split; [|split; [|split; [|split; [|split; [|split; [|split]]]]]].
  - unfold lift, ObjectId_new. by destruct (ObjectId_of_str _).
  - subst d. by rewrite bson_encode_lookup, lookup_insert_eq.
  - subst d data. destruct (CreateTaskRequest.due_date payload) as [s|];
      [destruct (Py.truthy s)|]; reflexivity.
  - subst d data. destruct (CreateTaskRequest.due_date payload) as [s|];
      [destruct (Py.truthy s)|]; reflexivity.
  - subst d data. destruct (CreateTaskRequest.due_date payload) as [s|];
      [destruct (Py.truthy s)|];
      by destruct (CreateTaskRequest.description payload).
  - subst d data. destruct (CreateTaskRequest.due_date payload) as [s|];
      [destruct (Py.truthy s)|]; reflexivity.
  - subst d data. destruct (CreateTaskRequest.due_date payload) as [s|];
      [destruct (Py.truthy s)|]; reflexivity.
  - intros Hvalid Hfresh. unfold lift, ObjectId_new. rewrite Hvalid.
    unfold find_one, mret, Handler_ret. cbn [fst]. rewrite coll_insert_eq.
    rewrite find_one_inserted; [done| |].
    + intros d0 Hd0 Hm%matches_singleton. by apply (Hfresh d0).
    + apply matches_singleton. subst d.
      by rewrite bson_encode_lookup, lookup_insert_eq.
Qed.

Lemma list_tasks_employee (db : DB) (authorization : option string)
    (current : AuthUser.t) (assignee : option string) :
  get_current_user authorization db = (Return current, db) →
  AuthUser.role current = employee →
  GET_tasks authorization assignee db
  = (Return (serialize_doc
             <$> filter (λ d : doc, d !! "assignee_email"
                                    = Some (VStr (AuthUser.email current)))
                        (coll db "task")), db).
Proof.
  intros Hauth Hrole. unfold GET_tasks.
  rewrite (depends_current _ _ _ _ Hauth). unfold list_tasks. run.
  rewrite Hrole, bool_decide_eq_true_2 by done.
  change (<["assignee_email" := ?v]> ∅)
    with ({["assignee_email" := v]} : doc).
  by rewrite find_singleton.
Qed.

(** X12.  [POST /tasks]: an employee is refused with 403 and nothing is
    written; for a core user one document is appended to [task], with the
    generated id, status ["pending"], the title, description and assignee
    of the request, and [due_date] the request's string when it is not
    empty and [None] otherwise; it is the document returned, serialized,
    when the id is fresh. *)
Theorem create_task_stores_pending (io : IO) (db : DB)
    (authorization : option string) (current : AuthUser.t)
    (payload : CreateTaskRequest.t) :
  get_current_user authorization db = (Return current, db) →
  let out := POST_tasks io authorization payload db in
  (AuthUser.role current = employee →
   out = (Raise (HTTPException 403 "Only core can create tasks"), db))
  ∧ (AuthUser.role current = core →
     ∃ d : doc,
       out.2 = <["task" := (coll db "task" ++ [d])%list]> db
       ∧ d !! "_id" = Some (VObjectId (new_ObjectId io))
       ∧ d !! "status" = Some (VStr "pending")
       ∧ d !! "title" = Some (VStr (CreateTaskRequest.title payload))
       ∧ d !! "description"
         = Some (opt_str (CreateTaskRequest.description payload))
       ∧ d !! "assignee_email"
         = Some (VStr (CreateTaskRequest.assignee_email payload))
       ∧ d !! "due_date"
         = Some (match CreateTaskRequest.due_date payload with
                 | Some s => if Py.truthy s then VStr s else VNone
                 | None => VNone
                 end)
       ∧ (ObjectId_of_str (oid_str (new_ObjectId io))
          = Some (new_ObjectId io) →
          (∀ d0, d0 ∈ coll db "task" →
                 d0 !! "_id" ≠ Some (VObjectId (new_ObjectId io))) →
          out.1 = Return (Some (serialize_doc d)))).
Proof.
  intros Hauth out. subst out. split.
  - intros Hrole. unfold POST_tasks.
    rewrite (depends_current _ _ _ _ Hauth). unfold create_task.
    by rewrite Hrole, bool_decide_eq_true_2.
  - intros Hrole. exact (create_task_core io db _ _ payload Hauth Hrole).
Qed.

(** X13.  [GET /tasks] returns, serialized and in store order, exactly:
    for an employee the tasks assigned to the employee's email; for a core
    user the tasks of the [assignee] parameter when it is a non-empty
    string, and all tasks otherwise.  Nothing is written. *)
Theorem task_listing_exact (db : DB) (authorization : option string)
    (current : AuthUser.t) (assignee : option string) :
  get_current_user authorization db = (Return current, db) →
  GET_tasks authorization assignee db
  = (Return
       (serialize_doc
        <$> match AuthUser.role current, assignee with
            | employee, _ =>
                filter (λ d : doc, d !! "assignee_email"
                                   = Some (VStr (AuthUser.email current)))
                       (coll db "task")
            | core, Some (String c a) =>
                filter (λ d : doc, d !! "assignee_email"
                                   = Some (VStr (String c a)))
                       (coll db "task")
            | core, _ => coll db "task"
            end), db).
Proof.
  intros Hauth. unfold GET_tasks.
  rewrite (depends_current _ _ _ _ Hauth). unfold list_tasks. run.
  destruct (AuthUser.role current).
  - rewrite bool_decide_eq_true_2 by done.
    change (<["assignee_email" := ?v]> ∅) with ({["assignee_email" := v]} : doc).
    by rewrite find_singleton.
  - rewrite bool_decide_eq_false_2 by done.
    destruct assignee as [[|c a]|]; cbn [Py.truthy].
    + by rewrite find_empty.
    + change (<["assignee_email" := ?v]> ∅)
        with ({["assignee_email" := v]} : doc).
      by rewrite find_singleton.
    + by rewrite find_empty.
Qed.

(** X14.  A task that a core user creates for an employee is, right
    after, the last entry of that employee's [GET /tasks], after the
    entries listed before, with the title of the request, status
    ["pending"] and the new id as a string. *)
Theorem created_task_is_listed (io : IO) (db : DB)
    (core_auth employee_auth : option string)
    (admin worker : AuthUser.t) (payload : CreateTaskRequest.t)
    (assignee : option string) :
  get_current_user core_auth db = (Return admin, db) →
  AuthUser.role admin = core →
  get_current_user employee_auth db = (Return worker, db) →
  AuthUser.role worker = employee →
  CreateTaskRequest.assignee_email payload = AuthUser.email worker →
  let db1 := (POST_tasks io core_auth payload db).2 in
  ∃ (before : list doc) (d : doc),
    GET_tasks employee_auth assignee db = (Return before, db)
    ∧ GET_tasks employee_auth assignee db1 = (Return (before ++ [d])%list, db1)
    ∧ d !! "title" = Some (VStr (CreateTaskRequest.title payload))
    ∧ d !! "status" = Some (VStr "pending")
    ∧ d !! "_id" = Some (VStr (oid_str (new_ObjectId io))).
Proof.
  intros Hadmin Hcore Hworker Hemp Hassignee db1.
  destruct (create_task_core io db core_auth admin payload Hadmin Hcore)
    as (d & Hdb1 & Hid & Hstatus & Htitle & _ & Hmail & _).
  fold db1 in Hdb1.
  assert (Hworker1 : get_current_user employee_auth db1 = (Return worker, db1)).
  { apply (authenticated_after_write _ db); [done|].
    rewrite Hdb1. by apply coll_insert_ne. }
  rewrite (list_tasks_employee _ _ _ _ Hworker Hemp).
  rewrite (list_tasks_employee _ _ _ _ Hworker1 Hemp).
  eexists _, (serialize_doc d). split; [done|]. split.
  - rewrite Hdb1, coll_insert_eq, filter_app, fmap_app. do 2 f_equal.
    rewrite filter_cons, filter_nil, decide_True; [done|].
    by rewrite Hmail, Hassignee.
  - rewrite !serialize_doc_lookup, Htitle, Hstatus, Hid. done.
Qed.
End tasksx.

Lemma updates_status (payload : UpdateTaskRequest.t) :
  UpdateTaskRequest.model_dump_exclude_none payload !! "status"
  = (λ s, VStr (TaskStatus_str s)) <$> UpdateTaskRequest.status payload.
Proof. by destruct payload as [[s|] [t|] [d|]]. Qed.

Lemma updates_title (payload : UpdateTaskRequest.t) :
  UpdateTaskRequest.model_dump_exclude_none payload !! "title"
  = VStr <$> UpdateTaskRequest.title payload.
Proof. by destruct payload as [[s|] [t|] [d|]]. Qed.

Lemma updates_description (payload : UpdateTaskRequest.t) :
  UpdateTaskRequest.model_dump_exclude_none payload !! "description"
  = VStr <$> UpdateTaskRequest.description payload.
Proof. by destruct payload as [[s|] [t|] [d|]]. Qed.

Lemma update_one_others (q upd : doc) (c : collection) :
  Forall2 (λ d d' : doc, ¬ Mongo.matches q d → d' = d)
          c (Mongo.update_one q upd c).
Proof.
  induction c as [|d c IH]; simpl; [constructor|].
  destruct (decide (Mongo.matches q d)).
  - constructor; [done|]. by apply Forall_Forall2_diag, Forall_forall.
  - by constructor.
Qed.

Section updates.
Context `{P : Platform}.

(** X15.  [PATCH /tasks/{id}] refuses, in this order and without writing:
    an id that is not an ObjectId with 400, an id that no task has with
    404, and an employee who is not the assignee of the task with 403. *)
Theorem update_task_refusals (io : IO) (db : DB)
    (authorization : option string) (current : AuthUser.t)
    (task_id : string) (payload : UpdateTaskRequest.t) :
  get_current_user authorization db = (Return current, db) →
  let out := PATCH_tasks io authorization task_id payload db in
  (ObjectId_of_str task_id = None →
   out = (Raise (HTTPException 400 "Invalid task id"), db))
  ∧ (∀ _id, ObjectId_of_str task_id = Some _id →
       (∀ d, d ∈ coll db "task" → d !! "_id" ≠ Some (VObjectId _id)) →
       out = (Raise (HTTPException 404 "Task not found"), db))
  ∧ (∀ _id task, ObjectId_of_str task_id = Some _id →
       Mongo.find_one {["_id" := VObjectId _id]} (coll db "task")
       = Some task →
       AuthUser.role current = employee →
       task !! "assignee_email" ≠ Some (VStr (AuthUser.email current)) →
       out = (Raise (HTTPException 403 "Not allowed"), db)).
Proof.
  intros Hauth out. subst out. unfold PATCH_tasks.
  rewrite (depends_current _ _ _ _ Hauth). unfold update_task.
  split; [|split].
  - by intros ->.
  - intros _id -> Hnone. run. rewrite find_one_no_match; [done|].
    intros d Hd Hm%matches_singleton. by apply (Hnone d).
  - intros _id task -> Hfind Hrole Hforeign. run. rewrite Hfind.
    cbn [falsy default from_option id].
    destruct (find_one_Some _ _ _ Hfind) as [_ Hm%matches_singleton].
    rewrite bool_decide_eq_false_2
      by (intros ->; by rewrite lookup_empty in Hm).
    rewrite Hrole, bool_decide_eq_true_2 by done.
    rewrite bool_decide_eq_true_2; [done|].
    unfold get. intros Heq. apply Hforeign.
    destruct (task !! "assignee_email"); simpl in Heq; by subst.
Qed.

(** X16.  [PATCH /tasks/{id}] with at least one field set, by a core user
    or the assignee: the task is re-read after the write and returned
    serialized; it has the fields of the request, [updated_at] equal to the
    clock cut to the millisecond, which is what the store keeps of it, and
    keeps the status, title or description that the request leaves out. *)
Theorem update_task_applies (io : IO) (db : DB)
    (authorization : option string) (current : AuthUser.t)
    (task_id : string) (_id : ObjectId) (task : doc)
    (payload : UpdateTaskRequest.t) :
  get_current_user authorization db = (Return current, db) →
  ObjectId_of_str task_id = Some _id →
  Mongo.find_one {["_id" := VObjectId _id]} (coll db "task") = Some task →
  AuthUser.role current = core
  ∨ task !! "assignee_email" = Some (VStr (AuthUser.email current)) →
  UpdateTaskRequest.model_dump_exclude_none payload ≠ ∅ →
  ∃ task' : doc,
    PATCH_tasks io authorization task_id payload db
    = (Return (Some (serialize_doc task')),
       <["task" :=
           Mongo.update_one {["_id" := VObjectId _id]}
             (<["updated_at" := VDatetime (utcnow io)]>
                (UpdateTaskRequest.model_dump_exclude_none payload))
             (coll db "task")]> db)
    ∧ Mongo.find_one {["_id" := VObjectId _id]}
        (Mongo.update_one {["_id" := VObjectId _id]}
           (<["updated_at" := VDatetime (utcnow io)]>
              (UpdateTaskRequest.model_dump_exclude_none payload))
           (coll db "task")) = Some task'
    ∧ task' !! "updated_at" = Some (VDatetime (bson_datetime (utcnow io)))
    ∧ (∀ s, UpdateTaskRequest.status payload = Some s →
            task' !! "status" = Some (VStr (TaskStatus_str s)))
    ∧ (∀ s, UpdateTaskRequest.title payload = Some s →
            task' !! "title" = Some (VStr s))
    ∧ (∀ s, UpdateTaskRequest.description payload = Some s →
            task' !! "description" = Some (VStr s))
    ∧ (UpdateTaskRequest.status payload = None →
       task' !! "status" = task !! "status")
    ∧ (UpdateTaskRequest.title payload = None →
       task' !! "title" = task !! "title")
    ∧ (UpdateTaskRequest.description payload = None →
       task' !! "description" = task !! "description").
Proof.
  intros Hauth Hid Hfind Hallowed Hsome.
  set (upd := <["updated_at" := VDatetime (utcnow io)]>
                (UpdateTaskRequest.model_dump_exclude_none payload)).
  exists (bson_encode upd ∪ task).
  destruct (find_one_Some _ _ _ Hfind) as [_ Hm%matches_singleton].
  assert (Hfind' :
    Mongo.find_one {["_id" := VObjectId _id]}
      (Mongo.update_one {["_id" := VObjectId _id]} upd (coll db "task"))
    = Some (bson_encode upd ∪ task)).
  { apply find_one_update_one; [done|]. apply matches_singleton.
    rewrite lookup_union_r; [done|]. apply bson_encode_None. subst upd.
    rewrite lookup_insert_ne by done. apply updates_keys. compute_done. }
  split; [|split; [done|]].
  - unfold PATCH_tasks. rewrite (depends_current _ _ _ _ Hauth).
    unfold update_task. rewrite Hid. run. rewrite Hfind.
    cbn [falsy default from_option id].
    rewrite bool_decide_eq_false_2
      by (intros ->; by rewrite lookup_empty in Hm).
    assert (bool_decide (AuthUser.role current = employee)
            && bool_decide (get task "assignee_email" VNone
                            ≠ VStr (AuthUser.email current)) = false)
      as ->.
    { destruct Hallowed as [Hcore | Hmine].
      - by rewrite Hcore.
      - unfold get. rewrite Hmine. cbn.
        rewrite (bool_decide_eq_false_2 (_ ≠ _)) by (by intros ?).
        apply andb_false_r. }
    rewrite bool_decide_eq_false_2 by done.
    rewrite coll_insert_eq. fold upd. by rewrite Hfind'.
  - subst upd. split; [|split; [|split; [|split; [|split; [|split]]]]].
    + apply lookup_union_Some_l.
      by rewrite bson_encode_lookup, lookup_insert_eq.
    + intros s Hs. apply lookup_union_Some_l. rewrite bson_encode_lookup.
      by rewrite lookup_insert_ne, updates_status, Hs.
    + intros s Hs. apply lookup_union_Some_l. rewrite bson_encode_lookup.
      by rewrite lookup_insert_ne, updates_title, Hs.
    + intros s Hs. apply lookup_union_Some_l. rewrite bson_encode_lookup.
      by rewrite lookup_insert_ne, updates_description, Hs.
    + intros Hs. apply lookup_union_r, bson_encode_None.
      by rewrite lookup_insert_ne, updates_status, Hs.
    + intros Hs. apply lookup_union_r, bson_encode_None.
      by rewrite lookup_insert_ne, updates_title, Hs.
    + intros Hs. apply lookup_union_r, bson_encode_None.
      by rewrite lookup_insert_ne, updates_description, Hs.
Qed.
End updates.

Section records.
Context `{P : Platform}.

Lemma update_task_writes_id (io : IO) (task_id : string) (_id : ObjectId)
    (payload : UpdateTaskRequest.t) (current : AuthUser.t) (db : DB) :
  ObjectId_of_str task_id = Some _id →
  (update_task io task_id payload current db).2 = db
  ∨ (update_task io task_id payload current db).2
    = <["task" :=
          Mongo.update_one {["_id" := VObjectId _id]}
            (<["updated_at" := VDatetime (utcnow io)]>
               (UpdateTaskRequest.model_dump_exclude_none payload))
            (coll db "task")]> db.
Proof.
  intros Hid. unfold update_task. rewrite Hid. run.
  repeat (case_match; simplify_eq/=; eauto).
Qed.

(** X17.  [PATCH /tasks/{id}] changes no task whose [_id] differs from the
    one addressed, and writes nothing at all when the id does not parse. *)
Theorem update_task_touches_one (io : IO) (db : DB)
    (authorization : option string) (task_id : string)
    (payload : UpdateTaskRequest.t) :
  let db' := (PATCH_tasks io authorization task_id payload db).2 in
  (ObjectId_of_str task_id = None → db' = db)
  ∧ (∀ _id, ObjectId_of_str task_id = Some _id →
       Forall2 (λ d d' : doc, d !! "_id" ≠ Some (VObjectId _id) → d' = d)
               (coll db "task") (coll db' "task")).
Proof.
  intros db'. subst db'. unfold PATCH_tasks, mbind, Handler_bind.
  pose proof (get_current_user_db authorization db) as Hdb.
  destruct (get_current_user authorization db) as [[current|e] db1];
    cbn [snd] in *; subst db1.
  2:{ split; [done|]. intros _id _.
      by apply Forall_Forall2_diag, Forall_forall. }
  split.
  - intros Hnone. unfold update_task. by rewrite Hnone.
  - intros _id Hid.
    destruct (update_task_writes_id io task_id _id payload current db Hid)
      as [-> | ->].
    + by apply Forall_Forall2_diag, Forall_forall.
    + rewrite coll_insert_eq.
      eapply Forall2_impl; [apply update_one_others|].
      intros d d' Hkeep Hother. apply Hkeep.
      by intros Hm%matches_singleton.
Qed.

(** X18.  [GET /reports] and [GET /salary] return to an employee exactly
    the documents whose [employee_email] is the employee's own, whatever
    the [employee] parameter, and write nothing. *)
Theorem employee_lists_own_reports_and_salary (db : DB)
    (authorization : option string) (current : AuthUser.t)
    (employee_q : option string) :
  get_current_user authorization db = (Return current, db) →
  AuthUser.role current = employee →
  GET_reports authorization employee_q db
  = (Return (serialize_doc
             <$> filter (λ d : doc, d !! "employee_email"
                                    = Some (VStr (AuthUser.email current)))
                        (coll db "report")), db)
  ∧ GET_salary authorization employee_q db
    = (Return (serialize_doc
               <$> filter (λ d : doc, d !! "employee_email"
                                      = Some (VStr (AuthUser.email current)))
                          (coll db "salarypayment")), db).
Proof.
  intros Hauth Hrole. unfold GET_reports, GET_salary.
  rewrite !(depends_current _ _ _ _ Hauth).
  unfold list_reports, list_salary. run.
  rewrite Hrole, bool_decide_eq_true_2 by done.
  change (<["employee_email" := ?v]> ∅)
    with ({["employee_email" := v]} : doc).
  by rewrite !find_singleton.
Qed.

(** X19.  [POST /reports]: a core user is refused with 403; whatever the
    request, the database is either left as it was or gets exactly one
    more report, whose [employee_email] is the caller's own email and whose
    summary and hours are those of the request; an employee's request with
    a date that does not parse ends in the uncaught [ValueError], and one
    with hours that fail a bound of the schema, a NaN among them, in the
    uncaught [ValidationError], both without a write. *)
Theorem report_author_is_caller (io : IO) (db : DB)
    (authorization : option string) (current : AuthUser.t)
    (payload : CreateReportRequest.t) :
  get_current_user authorization db = (Return current, db) →
  let out := POST_reports io authorization payload db in
  (AuthUser.role current = core →
   out = (Raise (HTTPException 403 "Only employees can submit reports"), db))
  ∧ (out.2 = db
     ∨ ∃ d : doc,
         out.2 = <["report" := (coll db "report" ++ [d])%list]> db
         ∧ d !! "employee_email" = Some (VStr (AuthUser.email current))
         ∧ d !! "summary"
           = Some (VStr (CreateReportRequest.summary payload))
         ∧ d !! "hours_worked"
           = Some (VFloat (CreateReportRequest.hours_worked payload)))
  ∧ (AuthUser.role current = employee →
     fromisoformat (CreateReportRequest.date payload) = None →
     out = (Raise ValueError, db))
  ∧ (∀ day, AuthUser.role current = employee →
       fromisoformat (CreateReportRequest.date payload) = Some day →
       Field_ge float_0 (CreateReportRequest.hours_worked payload) = false
       ∨ Field_le float_24 (CreateReportRequest.hours_worked payload) = false
       ∨ CreateReportRequest.hours_worked payload = S754_nan →
       out = (Raise ValidationError, db)).
Proof.
  intros Hauth out. subst out. unfold POST_reports.
  rewrite (depends_current _ _ _ _ Hauth). unfold create_report.
  split; [|split; [|split]].
  - intros ->. by rewrite bool_decide_eq_true_2.
  - case_bool_decide; [by left|]. unfold mbind, Handler_bind, lift.
    destruct (fromisoformat _) as [day|]; [|by left].
    unfold Report.validate. cbn [Report.hours_worked].
    destruct (Field_ge _ _ && Field_le _ _); [|by left].
    rewrite create_document_appends by reflexivity. right.
    eexists. split; [|split; [|split]].
    + unfold ObjectId_new. by destruct (ObjectId_of_str _).
    + reflexivity.
    + reflexivity.
    + reflexivity.
  - intros -> Hday.
    rewrite bool_decide_eq_false_2 by (by intros ?).
    unfold mbind, Handler_bind, lift. by rewrite Hday.
  - intros day -> Hday Hout.
    rewrite bool_decide_eq_false_2 by (by intros ?).
    unfold mbind, Handler_bind, lift. rewrite Hday.
    unfold Report.validate. cbn [Report.hours_worked].
    assert (Field_ge float_0 (CreateReportRequest.hours_worked payload)
            && Field_le float_24 (CreateReportRequest.hours_worked payload)
            = false) as ->; [|done].
    destruct Hout as [-> | [-> | ->]].
    + done.
    + apply andb_false_r.
    + by rewrite (proj1 (Field_bounds_nan float_0)).
Qed.

(** X20.  [POST /salary]: an employee is refused with 403; a core user's
    request with an amount that fails [ge=0], negative or NaN, ends in the
    schema's unhandled [ValidationError] and writes nothing; one with an
    amount that passes appends one record with the employee, amount, month
    and notes of the body, and with the status of the body when it gives
    one. *)
Theorem salary_record_fields (io : IO) (db : DB)
    (authorization : option string) (current : AuthUser.t)
    (body : CreateSalaryRequest.body) :
  get_current_user authorization db = (Return current, db) →
  let out := POST_salary io authorization body db in
  (AuthUser.role current = employee →
   out = (Raise (HTTPException 403 "Only core can create salary records"),
          db))
  ∧ (AuthUser.role current = core →
     SFltb (CreateSalaryRequest.body_amount body) float_0 = true
     ∨ CreateSalaryRequest.body_amount body = S754_nan →
     out = (Raise ValidationError, db))
  ∧ (AuthUser.role current = core →
     Field_ge float_0 (CreateSalaryRequest.body_amount body) = true →
     ∃ d : doc,
       out.2 = <["salarypayment" :=
                   (coll db "salarypayment" ++ [d])%list]> db
       ∧ d !! "employee_email"
         = Some (VStr (CreateSalaryRequest.body_employee_email body))
       ∧ d !! "amount"
         = Some (VFloat (CreateSalaryRequest.body_amount body))
       ∧ d !! "month" = Some (VStr (CreateSalaryRequest.body_month body))
       ∧ d !! "notes"
         = Some (opt_str (CreateSalaryRequest.body_notes body))
       ∧ ∀ s, CreateSalaryRequest.body_status body = Some s →
              d !! "status" = Some (VStr (SalaryStatus_str s))).
Proof.
  intros Hauth out. subst out. unfold POST_salary.
  rewrite (depends_current _ _ _ _ Hauth). unfold create_salary.
  split; [|split].
  - intros ->. by rewrite bool_decide_eq_true_2.
  - intros -> Hneg%Field_ge_0_false.
    rewrite bool_decide_eq_false_2 by (by intros ?).
    unfold mbind, Handler_bind, lift, SalaryPayment.validate.
    cbn [SalaryPayment.amount CreateSalaryRequest.amount
         CreateSalaryRequest.of_body]. by rewrite Hneg.
  - intros -> Hok. rewrite bool_decide_eq_false_2 by (by intros ?).
    unfold mbind, Handler_bind, lift, SalaryPayment.validate.
    cbn [SalaryPayment.amount CreateSalaryRequest.amount
         CreateSalaryRequest.of_body]. rewrite Hok.
    rewrite create_document_appends by reflexivity.
    eexists. split; [|split; [|split; [|split; [|split]]]].
    + unfold ObjectId_new. by destruct (ObjectId_of_str _).
    + reflexivity.
    + reflexivity.
    + reflexivity.
    + cbn. by destruct (CreateSalaryRequest.body_notes body).
    + intros s Hs. cbn. by rewrite Hs.
Qed.

Lemma create_finance_core (io : IO) (db : DB)
    (payload : CreateFinanceRequest.t) (current : AuthUser.t) :
  AuthUser.role current = core →
  Field_ge float_0 (CreateFinanceRequest.amount payload) = true →
  ∃ d : doc,
    (create_finance io payload current db).2
    = <["financerecord" := (coll db "financerecord" ++ [d])%list]> db
    ∧ d !! "_id" = Some (VObjectId (new_ObjectId io))
    ∧ d !! "kind"
      = Some (VStr (FinanceKind_str (CreateFinanceRequest.kind payload)))
    ∧ d !! "amount" = Some (VFloat (CreateFinanceRequest.amount payload))
    ∧ d !! "category" = Some (VStr (CreateFinanceRequest.category payload)).
Proof.
  intros Hrole Hok. unfold create_finance.
  rewrite Hrole, bool_decide_eq_false_2 by (by intros ?).
  unfold mbind, Handler_bind, lift, FinanceRecord.validate.
  cbn [FinanceRecord.amount]. rewrite Hok.
  rewrite create_document_appends by reflexivity.
  eexists. split; [|split; [|split; [|split]]].
  - unfold ObjectId_new. by destruct (ObjectId_of_str _).
  - reflexivity.
  - reflexivity.
  - reflexivity.
  - reflexivity.
Qed.

(** X21.  Finance for a core user: [list_finance] returns every record,
    serialized; a [POST /finance] with an amount that fails [ge=0],
    negative or NaN, ends in the schema's unhandled [ValidationError] and
    writes nothing; one with an amount that passes is, right after, the
    last entry that [list_finance] returns, with its kind, amount and
    category. *)
Theorem finance_round_trip (io : IO) (db : DB)
    (authorization : option string) (current : AuthUser.t)
    (payload : CreateFinanceRequest.t) :
  get_current_user authorization db = (Return current, db) →
  AuthUser.role current = core →
  let db1 := (POST_finance io authorization payload db).2 in
  GET_finance authorization db
  = (Return (serialize_doc <$> coll db "financerecord"), db)
  ∧ (SFltb (CreateFinanceRequest.amount payload) float_0 = true
     ∨ CreateFinanceRequest.amount payload = S754_nan →
     POST_finance io authorization payload db = (Raise ValidationError, db))
  ∧ (Field_ge float_0 (CreateFinanceRequest.amount payload) = true →
     ∃ d : doc,
       GET_finance authorization db1
       = (Return ((serialize_doc <$> coll db "financerecord") ++ [d])%list,
          db1)
       ∧ d !! "_id" = Some (VStr (oid_str (new_ObjectId io)))
       ∧ d !! "kind"
         = Some (VStr (FinanceKind_str (CreateFinanceRequest.kind payload)))
       ∧ d !! "amount"
         = Some (VFloat (CreateFinanceRequest.amount payload))
       ∧ d !! "category"
         = Some (VStr (CreateFinanceRequest.category payload))).
Proof.
  intros Hauth Hrole db1.
  assert (Hlist : ∀ db0, get_current_user authorization db0
                           = (Return current, db0) →
            GET_finance authorization db0
            = (Return (serialize_doc <$> coll db0 "financerecord"), db0)).
  { intros db0 Hauth0. unfold GET_finance.
    rewrite (depends_current _ _ _ _ Hauth0). unfold list_finance.
    rewrite Hrole, bool_decide_eq_false_2 by (by intros ?). run.
    by rewrite find_empty. }
  split; [by apply Hlist|]. split.
  - intros Hneg%Field_ge_0_false. unfold POST_finance.
    rewrite (depends_current _ _ _ _ Hauth). unfold create_finance.
    rewrite Hrole, bool_decide_eq_false_2 by (by intros ?).
    unfold mbind, Handler_bind, lift, FinanceRecord.validate.
    cbn [FinanceRecord.amount]. by rewrite Hneg.
  - intros Hok.
    destruct (create_finance_core io db payload current Hrole Hok)
      as (d & Hdb1 & Hid & Hkind & Hamount & Hcat).
    assert (Hdb1' : db1 = <["financerecord" :=
                              (coll db "financerecord" ++ [d])%list]> db).
    { subst db1. unfold POST_finance.
      by rewrite (depends_current _ _ _ _ Hauth). }
    exists (serialize_doc d). split.
    + rewrite Hlist.
      * by rewrite Hdb1', coll_insert_eq, fmap_app.
      * apply (authenticated_after_write _ db); [done|].
        rewrite Hdb1'. by apply coll_insert_ne.
    + by rewrite !serialize_doc_lookup, Hid, Hkind, Hamount, Hcat.
Qed.
End records.

(** X22.  [serialize_doc] keeps the keys of a document, turns every
    ObjectId and datetime into its string and keeps every other value, so
    its result holds neither; serializing twice changes nothing more. *)
Theorem serialize_doc_strings (d : doc) :
  dom (serialize_doc d) = dom d
  ∧ (∀ k v, d !! k = Some v →
       serialize_doc d !! k
       = Some (match v with
               | VObjectId o => VStr (oid_str o)
               | VDatetime t => VStr (isoformat t)
               | _ => v
               end))
  ∧ (∀ k o, serialize_doc d !! k ≠ Some (VObjectId o))
  ∧ (∀ k t, serialize_doc d !! k ≠ Some (VDatetime t))
  ∧ serialize_doc (serialize_doc d) = serialize_doc d.
Proof.
  assert (Hnot : ∀ k, match serialize_doc d !! k with
                      | Some (VObjectId _) | Some (VDatetime _) => False
                      | _ => True
                      end).
  { intros k. rewrite serialize_doc_lookup.
    by destruct (d !! k) as [[]|]. }
  split; [|split; [|split; [|split]]].
  - apply set_eq. intros k. rewrite !elem_of_dom, serialize_doc_lookup.
    by rewrite fmap_is_Some.
  - intros k v Hv. by rewrite serialize_doc_lookup, Hv.
  - intros k o Hk. specialize (Hnot k). by rewrite Hk in Hnot.
  - intros k t Hk. specialize (Hnot k). by rewrite Hk in Hnot.
  - apply map_eq. intros k. rewrite !serialize_doc_lookup.
    by destruct (d !! k) as [[]|].
Qed.

(** ** The further properties on concrete requests *)

Lemma scenario_auth_ada :
  @get_current_user Demo.platform (Demo.bearer Demo.ada_token) Scenario.db
  = (Return Scenario.ada_user, Scenario.db).
Proof. compute_done. Qed.

Lemma scenario_auth_bob :
  @get_current_user Demo.platform (Demo.bearer Demo.bob_token) Scenario.db
  = (Return Scenario.bob_user, Scenario.db).
Proof. compute_done. Qed.

Lemma scenario_auth_bob_strict :
  @get_current_user Scenario.platform_strict (Demo.bearer Demo.bob_token)
    Scenario.db
  = (Return Scenario.bob_user, Scenario.db).
Proof. compute_done. Qed.

Lemma authentication_sound_witness :
  ∃ (u : doc) (h rest : string),
    u ∈ coll Demo.db "user"
    ∧ u !! "email" = Some (VStr "ada@corp.io")
    ∧ u !! "is_active" = Some (VBool true)
    ∧ u !! "password_hash" = Some (VStr h)
    ∧ u !! "role" = Some (VStr "core")
    ∧ Py.split " " ("Bearer " +:+ Demo.ada_token) !! 1%nat = Some rest
    ∧ Py.strip rest = @make_token Demo.platform "ada@corp.io" h.
Proof.
  exact (@authentication_sound Demo.platform ("Bearer " +:+ Demo.ada_token)
           Demo.db Demo.db (AuthUser.make "ada@corp.io" core "Ada")
           demo_hex_digest demo_auth_ada).
Defined.

Lemma authentication_failures_witness :
  (@get_current_user Demo.platform (Some "Basic YWRhOnB3") Scenario.db).2
  = Scenario.db
  ∧ ∀ s detail,
      (@get_current_user Demo.platform (Some "Basic YWRhOnB3")
         Scenario.db).1 = Raise (HTTPException s detail) →
      s = 401%Z.
Proof.
  exact (@authentication_failures Demo.platform (Some "Basic YWRhOnB3")
           Scenario.db).
Defined.

Lemma malformed_authorization_is_401_witness :
  @get_current_user Demo.platform (Some "Bearer  c0ffee ") Scenario.db
  = (Raise (HTTPException 401 "Invalid token"), Scenario.db)
  ∧ @get_current_user Demo.platform (Some "Token c0ffee:ada@corp.io")
      Scenario.db
    = (Raise (HTTPException 401 "Missing or invalid Authorization header"),
       Scenario.db).
Proof.
  destruct (@malformed_authorization_is_401 Demo.platform Scenario.db)
    as (_ & Hscheme & Htoken).
  split.
  - apply (Htoken " c0ffee "). left. reflexivity.
  - apply (Hscheme "Token c0ffee:ada@corp.io"). reflexivity.
Defined.

Lemma login_rejections_witness :
  @POST_auth_login Demo.platform (LoginRequest.make "bob@corp.io" "guess")
    Scenario.db
  = (Raise (HTTPException 401 "Invalid credentials"), Scenario.db)
  ∧ @POST_auth_login Demo.platform (LoginRequest.make "carl@corp.io" "pw5")
      Scenario.db
    = (Raise (HTTPException 401 "Invalid credentials"), Scenario.db).
Proof.
  split.
  - destruct (@login_rejections Demo.platform Scenario.db
                (LoginRequest.make "bob@corp.io" "guess"))
      as (_ & _ & Hwrong).
    apply (Hwrong Demo.bob (VStr (Demo.hexlify "pw2"))).
    + compute_done.
    + reflexivity.
    + compute_done.
  - destruct (@login_rejections Demo.platform Scenario.db
                (LoginRequest.make "carl@corp.io" "pw5"))
      as (_ & Hnone & _).
    apply Hnone.
    change (coll Scenario.db "user") with [Demo.ada; Demo.bob; Scenario.carl].
    intros d Hd He. rewrite !elem_of_cons, elem_of_nil in Hd.
    destruct Hd as [-> | [-> | [-> | []]]].
    + vm_compute in He. congruence.
    + vm_compute in He. congruence.
    + vm_compute. congruence.
Defined.

Lemma inactive_user_token_rejected_witness :
  @get_current_user Demo.platform (Demo.bearer Scenario.carl_token)
    Scenario.db
  = (Raise (HTTPException 401 "User not found or inactive"), Scenario.db).
Proof.
  apply (@inactive_user_token_rejected Demo.platform Scenario.db
           "carl@corp.io" Scenario.carl_token).
  - change (coll Scenario.db "user") with [Demo.ada; Demo.bob; Scenario.carl].
    intros d Hd He. rewrite !elem_of_cons, elem_of_nil in Hd.
    destruct Hd as [-> | [-> | [-> | []]]].
    + vm_compute in He. congruence.
    + vm_compute in He. congruence.
    + vm_compute. congruence.
  - compute_done.
  - discriminate.
Defined.

Lemma bearer_scheme_any_case_witness :
  @get_current_user Demo.platform (Some ("BEARER" +:+ " " +:+ Demo.ada_token))
    Demo.db
  = @get_current_user Demo.platform (Some ("Bearer " +:+ Demo.ada_token))
      Demo.db.
Proof.
  exact (@bearer_scheme_any_case Demo.platform "BEARER" Demo.ada_token
           Demo.db eq_refl).
Defined.

Lemma secret_change_invalidates_token_witness :
  ∃ detail,
    @get_current_user Scenario.platform_rotated
      (Some ("Bearer " +:+ Demo.bob_token)) Demo.db
    = (Raise (HTTPException 401 detail), Demo.db).
Proof.
  refine (@secret_change_invalidates_token Demo.platform
            Scenario.platform_rotated Demo.db "bob@corp.io" "pw2"
            eq_refl _ demo_hex_digest _ _).
  - discriminate.
  - split; [discriminate | reflexivity].
  - change (coll Demo.db "user") with [Demo.ada; Demo.bob].
    intros d Hd He. rewrite !elem_of_cons, elem_of_nil in Hd.
    destruct Hd as [-> | [-> | []]].
    + vm_compute in He. congruence.
    + exists "pw2". split; [reflexivity | exact (demo_no_collision _ _)].
Defined.

Lemma parse_token_spec_witness :
  parse_token "c0ffee:bob@corp.io" = Return (Some "bob@corp.io")
  ∧ parse_token "c0ffee" = Return None.
Proof.
  destruct (parse_token_spec "c0ffee:bob@corp.io") as (_ & Hsome & _).
  destruct (parse_token_spec "c0ffee") as (Hnone & _ & _).
  split.
  - apply Hsome. exists "c0ffee". split; reflexivity.
  - apply Hnone. right. reflexivity.
Defined.

Lemma register_user_document_witness :
  ∃ d : doc,
    coll (@register_user Demo.platform Demo.io Scenario.zoe
            (Some Scenario.ada_user) Scenario.db).2 "user"
    = [Demo.ada; Demo.bob; Scenario.carl; d]
    ∧ d !! "email" = Some (VStr "zoe@corp.io")
    ∧ d !! "is_active" = Some (VBool true)
    ∧ d !! "role" = Some (VStr "employee").
Proof.
  assert (Hreg :
    @register_user Demo.platform Demo.io Scenario.zoe
      (Some Scenario.ada_user) Scenario.db
    = (Return (AuthUser.make "zoe@corp.io" employee "Zoe"),
       (@register_user Demo.platform Demo.io Scenario.zoe
          (Some Scenario.ada_user) Scenario.db).2)) by compute_done.
  destruct (@register_user_document Demo.platform Demo.io Scenario.zoe
              (Some Scenario.ada_user) Scenario.db _ _ Hreg)
    as (d & Hstored & Hemail & _ & Hactive & Hrole & _).
  exists d. split; [exact Hstored|]. split; [exact Hemail|].
  split; [exact Hactive | exact Hrole].
Defined.

Lemma second_registration_fails_witness :
  @POST_auth_register Demo.platform Demo.io None Demo.eve
    (@POST_auth_register Demo.platform Demo.io None Demo.eve ∅).2
  = (Raise (HTTPException 401 "Authentication required"),
     (@POST_auth_register Demo.platform Demo.io None Demo.eve ∅).2).
Proof.
  exact (proj2 (@second_registration_fails Demo.platform Demo.io Demo.io
                  None None Demo.eve Demo.eve ∅)).
Defined.

Lemma register_user_refusals_witness :
  @register_user Demo.platform Demo.io Scenario.zoe (Some Scenario.bob_user)
    Scenario.db
  = (Raise (HTTPException 403 "Only core can create users"), Scenario.db)
  ∧ @register_user Demo.platform Demo.io Scenario.bobby
      (Some Scenario.ada_user) Scenario.db
    = (Raise (HTTPException 400 "Email already registered"), Scenario.db).
Proof.
  assert (Hne : coll Scenario.db "user" ≠ []) by compute_done.
  split.
  - exact (proj1 (@register_user_refusals Demo.platform Demo.io Scenario.zoe
                    Scenario.bob_user Scenario.db Hne) eq_refl).
  - apply (proj2 (@register_user_refusals Demo.platform Demo.io
                    Scenario.bobby Scenario.ada_user Scenario.db Hne) eq_refl).
    exists Demo.bob. split; [compute_done | reflexivity].
Defined.

Lemma create_task_stores_pending_witness :
  ∃ d : doc,
    coll (@POST_tasks Demo.platform Demo.io (Demo.bearer Demo.ada_token)
            Scenario.new_task Scenario.db).2 "task"
    = [Demo.task_of_ada; Demo.task_of_bob; d]
    ∧ d !! "status" = Some (VStr "pending")
    ∧ d !! "due_date" = Some (VStr "2024-06-01")
    ∧ (@POST_tasks Demo.platform Demo.io (Demo.bearer Demo.ada_token)
         Scenario.new_task Scenario.db).1
      = Return (Some (serialize_doc d)).
Proof.
  pose proof (@create_task_stores_pending Demo.platform Demo.io Scenario.db
                (Demo.bearer Demo.ada_token) Scenario.ada_user
                Scenario.new_task scenario_auth_ada) as Hcreate.
  cbv zeta in Hcreate. destruct Hcreate as [_ Hcore].
  destruct (Hcore eq_refl)
    as (d & Hdb & _ & Hstatus & _ & _ & _ & Hdue & Hanswer).
  exists d. split; [|split; [exact Hstatus|split; [exact Hdue|]]].
  - rewrite Hdb. apply coll_insert_eq.
  - apply Hanswer; [reflexivity|].
    change (coll Scenario.db "task")
      with [Demo.task_of_ada; Demo.task_of_bob].
    intros d0 Hd0. rewrite !elem_of_cons, elem_of_nil in Hd0.
    destruct Hd0 as [-> | [-> | []]]; vm_compute; congruence.
Defined.

Lemma task_listing_exact_witness :
  @GET_tasks Demo.platform (Demo.bearer Demo.bob_token) (Some "ada@corp.io")
    Scenario.db
  = (Return [serialize_doc Demo.task_of_bob], Scenario.db)
  ∧ @GET_tasks Demo.platform (Demo.bearer Demo.ada_token) None Scenario.db
    = (Return [serialize_doc Demo.task_of_ada; serialize_doc Demo.task_of_bob],
       Scenario.db).
Proof.
  split.
  - etransitivity;
      [exact (@task_listing_exact Demo.platform Scenario.db
                (Demo.bearer Demo.bob_token) Scenario.bob_user
                (Some "ada@corp.io") scenario_auth_bob)|].
    compute_done.
  - etransitivity;
      [exact (@task_listing_exact Demo.platform Scenario.db
                (Demo.bearer Demo.ada_token) Scenario.ada_user None
                scenario_auth_ada)|].
    compute_done.
Defined.

Lemma created_task_is_listed_witness :
  let db1 := (@POST_tasks Demo.platform Demo.io (Demo.bearer Demo.ada_token)
                Scenario.new_task Scenario.db).2 in
  ∃ (before : list doc) (d : doc),
    @GET_tasks Demo.platform (Demo.bearer Demo.bob_token) None Scenario.db
    = (Return before, Scenario.db)
    ∧ @GET_tasks Demo.platform (Demo.bearer Demo.bob_token) None db1
      = (Return (before ++ [d])%list, db1)
    ∧ d !! "title" = Some (VStr "Stocktake")
    ∧ d !! "status" = Some (VStr "pending")
    ∧ d !! "_id" = Some (VStr (oid_str (new_ObjectId Demo.io))).
Proof.
  exact (@created_task_is_listed Demo.platform Demo.io Scenario.db
           (Demo.bearer Demo.ada_token) (Demo.bearer Demo.bob_token)
           Scenario.ada_user Scenario.bob_user Scenario.new_task None
           scenario_auth_ada eq_refl scenario_auth_bob eq_refl eq_refl).
Defined.

Lemma update_task_refusals_witness :
  @PATCH_tasks Demo.platform Demo.io (Demo.bearer Demo.bob_token)
    "65f0000000000000000000c2" Scenario.rename Scenario.db
  = (Raise (HTTPException 403 "Not allowed"), Scenario.db)
  ∧ @PATCH_tasks Demo.platform Demo.io (Demo.bearer Demo.bob_token)
      "task-7" Scenario.rename Scenario.db
    = (Raise (HTTPException 400 "Invalid task id"), Scenario.db).
Proof.
  split.
  - pose proof (@update_task_refusals Demo.platform Demo.io Scenario.db
                  (Demo.bearer Demo.bob_token) Scenario.bob_user
                  "65f0000000000000000000c2" Scenario.rename
                  scenario_auth_bob) as Hrefuse.
    cbv zeta in Hrefuse. destruct Hrefuse as (_ & _ & Hforeign).
    apply (Hforeign (mkObjectId "65f0000000000000000000c2")
             Demo.task_of_ada).
    + reflexivity.
    + compute_done.
    + reflexivity.
    + compute_done.
  - pose proof (@update_task_refusals Demo.platform Demo.io Scenario.db
                  (Demo.bearer Demo.bob_token) Scenario.bob_user
                  "task-7" Scenario.rename scenario_auth_bob) as Hrefuse.
    cbv zeta in Hrefuse. destruct Hrefuse as (Hinvalid & _).
    apply Hinvalid. reflexivity.
Defined.

Lemma update_task_applies_witness :
  ∃ task' : doc,
    (@PATCH_tasks Demo.platform Scenario.io_micro
       (Demo.bearer Demo.bob_token)
       "65f0000000000000000000c1" Scenario.rename Scenario.db).1
    = Return (Some (serialize_doc task'))
    ∧ task' !! "updated_at"
      = Some (VDatetime (mkDatetime "2024-05-02T10:15:30.123000"))
    ∧ task' !! "status" = Some (VStr "in_progress")
    ∧ task' !! "title" = Some (VStr "Audit Q2")
    ∧ task' !! "description" = Demo.task_of_bob !! "description".
Proof.
  destruct (@update_task_applies Demo.platform Scenario.io_micro Scenario.db
              (Demo.bearer Demo.bob_token) Scenario.bob_user
              "65f0000000000000000000c1"
              (mkObjectId "65f0000000000000000000c1") Demo.task_of_bob
              Scenario.rename scenario_auth_bob eq_refl)
    as (task' & Hanswer & _ & Hat & Hstatus & Htitle & _ & _ & _ & Hdesc).
  - compute_done.
  - right. reflexivity.
  - compute_done.
  - exists task'. split; [|split; [exact Hat|split; [|split]]].
    + rewrite Hanswer. reflexivity.
    + exact (Hstatus in_progress eq_refl).
    + exact (Htitle "Audit Q2" eq_refl).
    + exact (Hdesc eq_refl).
Defined.

Lemma update_task_touches_one_witness :
  Forall2 (λ d d' : doc,
             d !! "_id"
             ≠ Some (VObjectId (mkObjectId "65f0000000000000000000c1")) →
             d' = d)
    (coll Scenario.db "task")
    (coll (@PATCH_tasks Demo.platform Demo.io (Demo.bearer Demo.ada_token)
             "65f0000000000000000000c1" Scenario.rename Scenario.db).2
          "task").
Proof.
  exact (proj2 (@update_task_touches_one Demo.platform Demo.io Scenario.db
                  (Demo.bearer Demo.ada_token) "65f0000000000000000000c1"
                  Scenario.rename)
           (mkObjectId "65f0000000000000000000c1") eq_refl).
Defined.

Lemma employee_lists_own_reports_and_salary_witness :
  @GET_reports Demo.platform (Demo.bearer Demo.bob_token)
    (Some "carl@corp.io") Scenario.db
  = (Return [serialize_doc Scenario.report_of_bob], Scenario.db)
  ∧ @GET_salary Demo.platform (Demo.bearer Demo.bob_token)
      (Some "carl@corp.io") Scenario.db
    = (Return [serialize_doc Scenario.salary_of_bob], Scenario.db).
Proof.
  destruct (@employee_lists_own_reports_and_salary Demo.platform Scenario.db
              (Demo.bearer Demo.bob_token) Scenario.bob_user
              (Some "carl@corp.io") scenario_auth_bob eq_refl)
    as [Hreports Hsalary].
  split.
  - etransitivity; [exact Hreports|]. compute_done.
  - etransitivity; [exact Hsalary|]. compute_done.
Defined.

Lemma report_author_is_caller_witness :
  @POST_reports Demo.platform Demo.io (Demo.bearer Demo.ada_token)
    Scenario.good_day Scenario.db
  = (Raise (HTTPException 403 "Only employees can submit reports"),
     Scenario.db)
  ∧ @POST_reports Scenario.platform_strict Demo.io
      (Demo.bearer Demo.bob_token) Scenario.no_day Scenario.db
    = (Raise ValueError, Scenario.db)
  ∧ @POST_reports Demo.platform Demo.io (Demo.bearer Demo.bob_token)
      Scenario.nan_day Scenario.db
    = (Raise ValidationError, Scenario.db).
Proof.
  pose proof (@report_author_is_caller Demo.platform Demo.io Scenario.db
                (Demo.bearer Demo.ada_token) Scenario.ada_user
                Scenario.good_day scenario_auth_ada) as Hcore.
  pose proof (@report_author_is_caller Scenario.platform_strict Demo.io
                Scenario.db (Demo.bearer Demo.bob_token) Scenario.bob_user
                Scenario.no_day scenario_auth_bob_strict) as Hdate.
  pose proof (@report_author_is_caller Demo.platform Demo.io Scenario.db
                (Demo.bearer Demo.bob_token) Scenario.bob_user
                Scenario.nan_day scenario_auth_bob) as Hnan.
  cbv zeta in Hcore, Hdate, Hnan.
  destruct Hcore as (Hforbidden & _), Hdate as (_ & _ & Hvalue & _),
    Hnan as (_ & _ & _ & Hhours).
  split; [|split].
  - exact (Hforbidden eq_refl).
  - exact (Hvalue eq_refl eq_refl).
  - exact (Hhours (mkDate "2024-05-02") eq_refl eq_refl
             (or_intror (or_intror eq_refl))).
Defined.

Lemma salary_record_fields_witness :
  @POST_salary Demo.platform Demo.io (Demo.bearer Demo.bob_token)
    Scenario.pending_salary Scenario.db
  = (Raise (HTTPException 403 "Only core can create salary records"),
     Scenario.db)
  ∧ @POST_salary Demo.platform Demo.io (Demo.bearer Demo.ada_token)
      Scenario.nan_salary Scenario.db
    = (Raise ValidationError, Scenario.db)
  ∧ ∃ d : doc,
      (@POST_salary Demo.platform Demo.io (Demo.bearer Demo.ada_token)
         Scenario.pending_salary Scenario.db).2
      = <["salarypayment" :=
            (coll Scenario.db "salarypayment" ++ [d])%list]> Scenario.db
      ∧ d !! "status" = Some (VStr "pending")
      ∧ d !! "notes" = Some (VStr "advance").
Proof.
  pose proof (@salary_record_fields Demo.platform Demo.io Scenario.db
                (Demo.bearer Demo.bob_token) Scenario.bob_user
                Scenario.pending_salary scenario_auth_bob) as Hemp.
  pose proof (@salary_record_fields Demo.platform Demo.io Scenario.db
                (Demo.bearer Demo.ada_token) Scenario.ada_user
                Scenario.nan_salary scenario_auth_ada) as Hnan.
  pose proof (@salary_record_fields Demo.platform Demo.io Scenario.db
                (Demo.bearer Demo.ada_token) Scenario.ada_user
                Scenario.pending_salary scenario_auth_ada) as Hcore.
  cbv zeta in Hemp, Hnan, Hcore.
  destruct Hemp as (Hforbidden & _), Hnan as (_ & Hrefused & _),
    Hcore as (_ & _ & Hstored).
  split; [exact (Hforbidden eq_refl)|].
  split; [exact (Hrefused eq_refl (or_intror eq_refl))|].
  destruct (Hstored eq_refl eq_refl)
    as (d & Hdb & _ & _ & _ & Hnotes & Hstatus).
  exists d. split; [exact Hdb|]. split.
  - exact (Hstatus salary_pending eq_refl).
  - exact Hnotes.
Defined.

Lemma finance_round_trip_witness :
  @POST_finance Demo.platform Demo.io (Demo.bearer Demo.ada_token)
    Scenario.refund Scenario.db
  = (Raise ValidationError, Scenario.db)
  ∧ @POST_finance Demo.platform Demo.io (Demo.bearer Demo.ada_token)
      Scenario.nan_finance Scenario.db
    = (Raise ValidationError, Scenario.db)
  ∧ ∃ d : doc,
      @GET_finance Demo.platform (Demo.bearer Demo.ada_token)
        (@POST_finance Demo.platform Demo.io (Demo.bearer Demo.ada_token)
           Demo.rent Scenario.db).2
      = (Return ((serialize_doc <$> coll Scenario.db "financerecord")
                 ++ [d])%list,
         (@POST_finance Demo.platform Demo.io (Demo.bearer Demo.ada_token)
            Demo.rent Scenario.db).2)
      ∧ d !! "kind" = Some (VStr "expense")
      ∧ d !! "category" = Some (VStr "Ops").
Proof.
  pose proof (@finance_round_trip Demo.platform Demo.io Scenario.db
                (Demo.bearer Demo.ada_token) Scenario.ada_user
                Scenario.refund scenario_auth_ada eq_refl) as Hrefund.
  pose proof (@finance_round_trip Demo.platform Demo.io Scenario.db
                (Demo.bearer Demo.ada_token) Scenario.ada_user
                Scenario.nan_finance scenario_auth_ada eq_refl) as Hnan.
  pose proof (@finance_round_trip Demo.platform Demo.io Scenario.db
                (Demo.bearer Demo.ada_token) Scenario.ada_user
                Demo.rent scenario_auth_ada eq_refl) as Hrent.
  cbv zeta in Hrefund, Hnan, Hrent.
  destruct Hrefund as (_ & Hnegative & _), Hnan as (_ & Hrefused & _),
    Hrent as (_ & _ & Hstored).
  split; [exact (Hnegative (or_introl eq_refl))|].
  split; [exact (Hrefused (or_intror eq_refl))|].
  destruct (Hstored eq_refl) as (d & Hlist & _ & Hkind & _ & Hcat).
  exists d. split; [exact Hlist|]. split; [exact Hkind | exact Hcat].
Defined.

Lemma serialize_doc_strings_witness :
  serialize_doc Demo.task_of_bob !! "_id"
  = Some (VStr "65f0000000000000000000c1")
  ∧ serialize_doc Demo.task_of_bob !! "updated_at"
    = Some (VStr "2024-04-01T08:00:00")
  ∧ serialize_doc (serialize_doc Demo.task_of_bob)
    = serialize_doc Demo.task_of_bob.
Proof.
  destruct (serialize_doc_strings Demo.task_of_bob)
    as (_ & Hvalues & _ & _ & Hidem).
  split; [|split].
  - exact (Hvalues "_id" _ eq_refl).
  - exact (Hvalues "updated_at" _ eq_refl).
  - exact Hidem.
Defined.
